(** * MateriAI: the response parser and the request pipeline of streamlit_app.py

    A shallow embedding of [display_table], [get_image_from_dalle],
    [summarize_input], the two suggestion fetchers and the button handler of
    [main], followed by the properties the specification states about them.

    Text.  A Python [str] is modelled by [string]; a character is a code
    point below 256.  On that range the whitespace of [str.strip] and of the
    regular expression class [\s] is the set of [Py.isspace], and the class
    [\d] is the ten digits ['0'..'9'].

    Effects.  The calls to OpenAI and to Streamlit are recorded, in order, in
    a history of events.  What OpenAI answers is not decided by the program:
    it is given by an [OpenAI] record of replies that may depend on everything
    that happened before.  A reply [None] stands for a call that raised. *)

From Stdlib Require Import String Ascii List Bool Arith Lia.
Import ListNotations.
Open Scope string_scope.
Open Scope list_scope.
Open Scope nat_scope.

(** ** Python built-ins on [str] and [list] *)

Module Py.

(** The line feed, and Python's ['\n'] and ['\n\n']. *)
Definition LF : ascii := "010"%char.

Definition nl : string := String LF "".

Definition nlnl : string := String LF nl.

(** [str.isspace] on one character (code points below 256):
    TAB, LF, VT, FF, CR, FS, GS, RS, US, SPACE, NEL and NBSP. *)
Definition isspace (c : ascii) : bool :=
  let n := nat_of_ascii c in
  (((9 <=? n) && (n <=? 13)) || ((28 <=? n) && (n <=? 32))
   || (n =? 133) || (n =? 160))%nat.

(** [str.isdecimal] on one character (code points below 256). *)
Definition isdecimal (c : ascii) : bool :=
  let n := nat_of_ascii c in ((48 <=? n) && (n <=? 57))%nat.

(** [bool(s)] of a [str]: true unless [s] is empty. *)
Definition truthy (s : string) : bool :=
  match s with "" => false | String _ _ => true end.

(** [c in chars]. *)
Fixpoint mem (c : ascii) (chars : string) : bool :=
  match chars with
  | "" => false
  | String d chars' => Ascii.eqb c d || mem c chars'
  end.

(** [s.lstrip()] and [s.rstrip()]: drop the leading (trailing) run of
    whitespace. *)
Fixpoint lstrip (s : string) : string :=
  match s with
  | "" => ""
  | String c s' => if isspace c then lstrip s' else s
  end.

Fixpoint rstrip (s : string) : string :=
  match s with
  | "" => ""
  | String c s' =>
      match rstrip s' with
      | "" => if isspace c then "" else String c ""
      | r => String c r
      end
  end.

(** [s.strip()]. *)
Definition strip (s : string) : string := rstrip (lstrip s).

(** [s.lstrip(chars)]: drop the leading run of characters that occur in
    [chars]. *)
Fixpoint lstrip_chars (chars s : string) : string :=
  match s with
  | "" => ""
  | String c s' => if mem c chars then lstrip_chars chars s' else s
  end.

(** [sep in s]: [sep] occurs in [s] as a substring. *)
Fixpoint contains (sep s : string) : bool :=
  prefix sep s ||
  match s with
  | "" => false
  | String _ s' => contains sep s'
  end.

(** [s.split(sep)] for a non-empty [sep] (Python raises ValueError on an
    empty one; the program only passes the literals ['\n\n'] and ["\n"]).
    The text is scanned from the left; at an occurrence of [sep] the current
    piece ends and the scan resumes behind the occurrence: [skip] counts the
    characters of that occurrence still to be passed over. *)
Fixpoint split_go (sep : string) (skip : nat) (s : string) : list string :=
  match s with
  | "" => [""]
  | String c s' =>
      match skip with
      | S k => split_go sep k s'
      | O =>
          if prefix sep s then "" :: split_go sep (String.length sep - 1) s'
          else
            match split_go sep 0 s' with
            | p :: ps => String c p :: ps
            | [] => [String c ""]
            end
      end
  end.

Definition split (sep s : string) : list string := split_go sep 0 s.

(** [s.replace(old, new)] for a non-empty [old]: every occurrence of [old],
    found from the left and not overlapping the one before, is replaced. *)
Fixpoint replace_go (old new : string) (skip : nat) (s : string) : string :=
  match s with
  | "" => ""
  | String c s' =>
      match skip with
      | S k => replace_go old new k s'
      | O =>
          if prefix old s then new ++ replace_go old new (String.length old - 1) s'
          else String c (replace_go old new 0 s')
      end
  end.

Definition replace (old new s : string) : string := replace_go old new 0 s.

(** [sep.join(pieces)]. *)
Fixpoint join (sep : string) (pieces : list string) : string :=
  match pieces with
  | [] => ""
  | [p] => p
  | p :: ps => p ++ sep ++ join sep ps
  end.

(** The slice [l[1:-1]]: the elements from index 1 up to, and without, the
    last one. *)
Definition slice_1_m1 {A : Type} (l : list A) : list A :=
  firstn (List.length l - 1 - 1) (skipn 1 l).

(** The slice [l[:4]]. *)
Definition slice_to_4 {A : Type} (l : list A) : list A := firstn 4 l.

End Py.

(** ** The regular expression of [display_table] *)

Module Re.
Import Py.

(** The alternative [^\d+\.\s*] tried at the start of the text.  [digits_dot]
    is entered behind a first digit: it passes the rest of the run of digits
    and the period.  A period is no digit, so the greedy [\d+] never has to
    give a digit back.  The greedy [\s*] then takes the whole run of
    whitespace.  The result is the text behind the match. *)
Fixpoint digits_dot (s : string) : option string :=
  match s with
  | "" => None
  | String c s' =>
      if isdecimal c then digits_dot s'
      else if Ascii.eqb c "." then Some s' else None
  end.

Definition match_ordinal (s : string) : option string :=
  match s with
  | "" => None
  | String c s' => if isdecimal c then option_map lstrip (digits_dot s') else None
  end.

(** [$] without MULTILINE: at the end of the text, or before a line feed that
    ends the text. *)
Definition at_end (s : string) : bool :=
  match s with
  | "" => true
  | String c "" => Ascii.eqb c LF
  | _ => false
  end.

(** The alternative [\:$] tried from the left at every position: the first
    colon that stands at the end is dropped. *)
Fixpoint sub_colon_end (s : string) : string :=
  match s with
  | "" => ""
  | String c s' =>
      if Ascii.eqb c ":" && at_end s' then s' else String c (sub_colon_end s')
  end.

(** [re.sub(r"^\d+\.\s*|\:$", "", s)]: the first alternative can only match
    at position 0, where it is tried first; the scan then goes on behind it
    with the second alternative alone. *)
Definition sub (s : string) : string :=
  match match_ordinal s with
  | Some rest => sub_colon_end rest
  | None => sub_colon_end s
  end.

End Re.

(** ** Effects: exceptions, events and the history of a run *)

(** The exceptions the modelled statements can raise: an index out of range
    on a list, and a missing column in [DataFrame.drop]. *)
Inductive exn : Type := IndexError | KeyError.

(** The texts shown to the user, by the line of the source that builds them
    (emoji and the text of a caught exception are not kept). *)
Inductive text : Type :=
| txt_image_error (description : string)   (* line 27 *)
| txt_error_occurred                       (* lines 80 and 99 *)
| txt_summarization_error                  (* line 119 *)
| txt_enter_description                    (* line 172 *)
| txt_failed_to_summarize                  (* line 177 *)
| txt_summarized (summarized_input : string) (* line 181 *)
| txt_heading (material_name : string)     (* line 195 *)
| txt_properties (value : string)          (* line 198 *)
| txt_pros (value : string)                (* line 199 *)
| txt_cons (value : string)                (* line 200 *)
| txt_rule                                 (* line 201 *)
| txt_fetched                              (* line 203 *)
| txt_download                             (* line 209 *)
| txt_saved.                               (* line 210 *)

(** What a run does to the outside, one event per call.  A call to OpenAI
    carries its prompt and the reply it got ([None]: the call raised; the
    fixed model, size and temperature arguments are not kept). *)
Inductive event : Type :=
| openai_Image_create (prompt : string) (reply : option string)
| openai_Completion_create (prompt : string) (reply : option string)
| openai_ChatCompletion_create (prompt : string) (reply : option string)
| st_warning (t : text)
| st_error (t : text)
| st_success (t : text)
| st_markdown (t : text)
| st_write (t : text)
| st_image (url caption : string)
| df_to_csv (rows : list (string * string * string * string)).

Definition history : Type := list event.

(** The replies of the three OpenAI endpoints, given what happened so far
    and the prompt. *)
Record OpenAI : Type := {
  Image_reply : history -> string -> option string;
  Completion_reply : history -> string -> option string;
  ChatCompletion_reply : history -> string -> option string
}.

(** A statement of the program: from the history so far to a value or an
    uncaught exception, and the history after it. *)
Definition M (A : Type) : Type := history -> (exn + A) * history.

Definition ret {A : Type} (a : A) : M A := fun h => (inr a, h).

Definition raise {A : Type} (e : exn) : M A := fun h => (inl e, h).

Definition bind {A B : Type} (m : M A) (k : A -> M B) : M B :=
  fun h =>
    match m h with
    | (inr a, h') => k a h'
    | (inl e, h') => (inl e, h')
    end.

Notation "x <- m ;; k" := (bind m (fun x => k))
  (at level 61, m at next level, right associativity).
Notation "m ;;; k" := (bind m (fun _ => k))
  (at level 61, right associativity).

Definition emit (ev : event) : M unit := fun h => (inr tt, h ++ [ev]).

(** [l[i]] on a list: IndexError when [i] is out of range. *)
Definition index {A : Type} (l : list A) (i : nat) : M A :=
  match nth_error l i with
  | Some x => ret x
  | None => raise IndexError
  end.

(** ** The data of display_table *)

(** One row of the table: the OrderedDict built at lines 46-57, with its
    keys "Material", "Properties", "Pros", "Cons" and "Image". *)
Record Material : Type := {
  Material_ : string;
  Properties : string;
  Pros : string;
  Cons : string;
  Image : string
}.

(** The pandas DataFrame of the rows, in their order. *)
Definition DataFrame : Type := list Material.

(** The value written at line 57 when there is no image. *)
Definition No_Image : string := "No Image".

(** The chain [.replace(label, "").lstrip('- ').strip()] of lines 43-45. *)
Definition field (label line : string) : string :=
  Py.strip (Py.lstrip_chars "- " (Py.replace label "" line)).

(** The radio button of line 168. *)
Inductive explanation : Type := Brief | Detailed.

(** ** The program *)

Section Program.

Variable api : OpenAI.

(** Lines 15-28. *)
Definition get_image_from_dalle (description : string) : M (option string) :=
  reply <- (fun h =>
              let r := Image_reply api h description in
              (inr r, h ++ [openai_Image_create description r])) ;;
  match reply with
  | Some url => ret (Some url)
  | None => emit (st_warning (txt_image_error description)) ;;; ret None
  end.

(** Lines 40-58: the body of the loop for a paragraph that is not empty. *)
Definition extract_material (material_info : string) : M (option Material) :=
  let lines := Py.split Py.nl material_info in
  if (2 <? List.length lines)%nat then
    line0 <- index lines 0 ;;
    let material_name := Py.strip (Re.sub line0) in
    line1 <- index lines 1 ;;
    let properties := field "Properties: " line1 in
    line2 <- index lines 2 ;;
    let pros := field "Pros: " line2 in
    cons <- (if (3 <? List.length lines)%nat
             then line3 <- index lines 3 ;; ret (field "Cons: " line3)
             else ret "") ;;
    image_url <- get_image_from_dalle material_name ;;
    let image :=
      match image_url with
      | Some url => if Py.truthy url then url else No_Image
      | None => No_Image
      end in
    ret (Some {| Material_ := material_name; Properties := properties;
                 Pros := pros; Cons := cons; Image := image |})
  else ret None.

(** Lines 37-58: the loop over the paragraphs, [materials] being the list
    appended to. *)
Fixpoint for_paragraphs (paragraphs : list string) (materials : list Material)
  : M (list Material) :=
  match paragraphs with
  | [] => ret materials
  | material_info :: rest =>
      let material_info := Py.strip material_info in
      if Py.truthy material_info then
        material <- extract_material material_info ;;
        match material with
        | Some m => for_paragraphs rest (materials ++ [m])
        | None => for_paragraphs rest materials
        end
      else for_paragraphs rest materials
  end.

(** Lines 30-62. *)
Definition display_table (output : string) : M DataFrame :=
  let paragraphs := Py.slice_1_m1 (Py.split Py.nlnl (Py.strip output)) in
  match paragraphs with
  | [] => ret []
  | _ => materials <- for_paragraphs paragraphs [] ;; ret materials
  end.

(** Lines 64-81 and 83-100. *)
Definition fetch_brief_material_suggestions (summarized_input : string)
  : M (option string) :=
  let content := (summarized_input ++
    ". Please provide the main key points regarding the materials' properties, pros, and cons.")%string in
  reply <- (fun h =>
              let r := ChatCompletion_reply api h content in
              (inr r, h ++ [openai_ChatCompletion_create content r])) ;;
  match reply with
  | Some answer => ret (Some answer)
  | None => emit (st_error txt_error_occurred) ;;; ret None
  end.

Definition fetch_detailed_material_suggestions (summarized_input : string)
  : M (option string) :=
  let content := (summarized_input ++
    ". Please provide detailed explanations regarding the materials' properties, pros, and cons.")%string in
  reply <- (fun h =>
              let r := ChatCompletion_reply api h content in
              (inr r, h ++ [openai_ChatCompletion_create content r])) ;;
  match reply with
  | Some answer => ret (Some answer)
  | None => emit (st_error txt_error_occurred) ;;; ret None
  end.

(** Lines 102-120. *)
Definition summarize_input (input_text : string) : M (option string) :=
  let prompt :=
    (Py.nl ++ "        Generate a one sentence, descriptive and concise prompt for the user input: "
     ++ input_text ++ Py.nl ++ "        The output must be in one sentence."
     ++ Py.nl ++ "        ")%string in
  reply <- (fun h =>
              let r := Completion_reply api h prompt in
              (inr r, h ++ [openai_Completion_create prompt r])) ;;
  match reply with
  | Some cover_prompt => ret (Some cover_prompt)
  | None => emit (st_error txt_summarization_error) ;;; ret None
  end.

(** Lines 193-201: the rows are shown one after the other. *)
Fixpoint show_rows (df : DataFrame) : M unit :=
  match df with
  | [] => ret tt
  | row :: rest =>
      let material_name := Material_ row in
      emit (st_markdown (txt_heading material_name)) ;;;
      (if String.eqb (Image row) No_Image then ret tt
       else emit (st_image (Image row) material_name)) ;;;
      emit (st_markdown (txt_properties (Properties row))) ;;;
      emit (st_markdown (txt_pros (Pros row))) ;;;
      emit (st_markdown (txt_cons (Cons row))) ;;;
      emit (st_write txt_rule) ;;;
      show_rows rest
  end.

(** Lines 205-210: [df.drop(columns=['Image'])] raises KeyError on a frame
    without rows, which has no column. *)
Definition save_output (df : DataFrame) : M unit :=
  match df with
  | [] => raise KeyError
  | _ =>
      emit (df_to_csv (map (fun r => (Material_ r, Properties r, Pros r, Cons r)) df)) ;;;
      emit (st_markdown txt_download) ;;;
      emit (st_success txt_saved)
  end.

(** Lines 170-210 of [main]: what happens on a run of the script, given the
    text of the text area, the radio button and whether the two buttons
    report a click.  (Lines 123-168 lay out the page and call nothing else.) *)
Definition main (get_clicked : bool) (user_input : string)
    (explanation_type : explanation) (save_clicked : bool) : M unit :=
  if get_clicked then
    if negb (Py.truthy (Py.strip user_input)) then
      emit (st_warning txt_enter_description)
    else
      summarized <- summarize_input user_input ;;
      match summarized with
      | None | Some "" => emit (st_error txt_failed_to_summarize)
      | Some summarized_input =>
          emit (st_markdown (txt_summarized summarized_input)) ;;;
          output <- match explanation_type with
                    | Brief => fetch_brief_material_suggestions summarized_input
                    | Detailed => fetch_detailed_material_suggestions summarized_input
                    end ;;
          match output with
          | None | Some "" => ret tt
          | Some output =>
              df <- display_table output ;;
              show_rows df ;;;
              emit (st_success txt_fetched) ;;;
              if save_clicked then save_output df else ret tt
          end
      end
  else ret tt.

End Program.

(** ** The vocabulary of the properties *)

Import Py.

(** The text of whitespace alone, the empty one included. *)
Fixpoint whitespace_only (s : string) : bool :=
  match s with
  | "" => true
  | String c s' => isspace c && whitespace_only s'
  end.

(** Every line feed of the text is followed by a character that is not a
    line feed. *)
Fixpoint LF_followed (s : string) : bool :=
  match s with
  | "" => true
  | String c s' =>
      (if Ascii.eqb c LF
       then match s' with "" => false | String d _ => negb (Ascii.eqb d LF) end
       else true) && LF_followed s'
  end.

(** The paragraph blocks of a response as the loop sees them: the paragraphs
    between the first and the last one, each stripped (lines 32 and 38). *)
Definition blocks (output : string) : list string :=
  map strip (slice_1_m1 (split nlnl (strip output))).

(** The lines of a block that are not empty. *)
Definition nonempty_lines (block : string) : list string :=
  filter truthy (split nl block).

(** The block yields at least three non-empty lines. *)
Definition three_lines (block : string) : bool :=
  3 <=? List.length (nonempty_lines block).

(** Lines 54-57: the value of the "Image" key for a reply. *)
Definition image_of (reply : option string) : string :=
  match reply with
  | Some url => if Py.truthy url then url else No_Image
  | None => No_Image
  end.

(** The four parsed fields of a row are those cut from the first lines of
    the block. *)
Definition parsed_from (row : Material) (block : string) : Prop :=
  match Py.split Py.nl block with
  | line0 :: line1 :: line2 :: rest =>
      Material_ row = Py.strip (Re.sub line0) /\
      Properties row = field "Properties: " line1 /\
      Pros row = field "Pros: " line2 /\
      Cons row = match rest with
                 | line3 :: _ => field "Cons: " line3
                 | [] => ""
                 end
  | _ => False
  end.

(** The image requests among the events, with their replies, in order. *)
Definition image_requests (evs : history) : list (string * option string) :=
  flat_map (fun ev => match ev with
                      | openai_Image_create prompt reply => [(prompt, reply)]
                      | _ => []
                      end) evs.

(** The row asked for an image under its name and holds what lines 54-57 make
    of the reply. *)
Definition enriched (row : Material) (request : string * option string) : Prop :=
  fst request = Material_ row /\ Image row = image_of (snd request).

(** The events of one call of [get_image_from_dalle]. *)
Definition image_events (api : OpenAI) (h : history) (description : string) : history :=
  let reply := Image_reply api h description in
  openai_Image_create description reply ::
  match reply with
  | Some _ => []
  | None => [st_warning (txt_image_error description)]
  end.

(** The events that are calls to OpenAI. *)
Definition is_openai_call (ev : event) : bool :=
  match ev with
  | openai_Image_create _ _ => true
  | openai_Completion_create _ _ => true
  | openai_ChatCompletion_create _ _ => true
  | _ => false
  end.

(** [s[n:]]: the text behind its first [n] characters. *)
Fixpoint drop (n : nat) (s : string) : string :=
  match n, s with
  | S k, String _ s' => drop k s'
  | _, _ => s
  end.

(** The label rule in the words of the specification, where the program has
    [replace]: the label is taken away only where the line starts with it. *)
Definition removeprefix (label line : string) : string :=
  if prefix label line then drop (String.length label) line else line.

(** The field as the specification words it: the label prefix taken away,
    then the leading hyphens and spaces, then stripped. *)
Definition field_by_prefix (label line : string) : string :=
  strip (lstrip_chars "- " (removeprefix label line)).

(** An OpenAI that answers no call: every request raises. *)
Definition offline : OpenAI :=
  {| Image_reply := fun _ _ => None;
     Completion_reply := fun _ _ => None;
     ChatCompletion_reply := fun _ _ => None |}.

(** The response of the end-to-end example. *)
Definition example_response : string :=
  ("Intro." ++ nl ++ nl ++
   "1. Aluminum:" ++ nl ++
   "Properties: - lightweight" ++ nl ++
   "Pros: - corrosion resistant" ++ nl ++
   "Cons: - costlier than steel" ++ nl ++ nl ++
   "2. Steel:" ++ nl ++
   "Properties: - strong" ++ nl ++
   "Pros: - cheap" ++ nl ++ nl ++
   "Outro.")%string.

(** A response whose only block has a bare ordinal as its first line. *)
Definition bare_ordinal_response : string :=
  ("Intro." ++ nl ++ nl ++
   "1." ++ nl ++ "Properties: - light" ++ nl ++ "Pros: - cheap" ++ nl ++ nl ++
   "Outro.")%string.

(** A response whose second line holds the label inside the text. *)
Definition label_inside_response : string :=
  ("Intro." ++ nl ++ nl ++
   "Oak:" ++ nl ++ "Good Properties: dense" ++ nl ++ "Pros: cheap" ++ nl ++ nl ++
   "Outro.")%string.

(** A line in which deleting the label puts a new occurrence together. *)
Definition spliced_line : string := "PropertiesProperties: : dense".

(** A response of two paragraphs. *)
Definition two_paragraphs : string :=
  ("Intro." ++ nl ++ nl ++ "Outro.")%string.

(** A block of five lines. *)
Definition five_lines : string :=
  ("3. Brass:" ++ nl ++ "Properties: - dense" ++ nl ++ "Pros: - machinable"
   ++ nl ++ "Cons: - tarnishes" ++ nl ++ "Note: - an alloy")%string.

(** A block of five lines whose fourth line is the bare label "Cons: ", the
    response that holds it, and the response that holds in its place the
    block cut down to its first four lines. *)
Definition bare_cons_block : string :=
  ("4. Zinc:" ++ nl ++ "Properties: - soft" ++ nl ++ "Pros: - cheap"
   ++ nl ++ "Cons: " ++ nl ++ "Note: - none")%string.

Definition bare_cons_response : string :=
  ("Intro." ++ nlnl ++ bare_cons_block ++ nlnl ++ "Outro.")%string.

Definition bare_cons_truncated_response : string :=
  ("Intro." ++ nlnl ++ join nl (slice_to_4 (split nl bare_cons_block))
   ++ nlnl ++ "Outro.")%string.

(** A block of five lines whose third and fourth lines are one space each,
    and the two responses made of it in the same way. *)
Definition blank_lines_block : string :=
  ("Tin" ++ nl ++ "soft" ++ nl ++ " " ++ nl ++ " " ++ nl ++ "Note")%string.

Definition blank_lines_response : string :=
  ("Intro." ++ nlnl ++ blank_lines_block ++ nlnl ++ "Outro.")%string.

Definition blank_lines_truncated_response : string :=
  ("Intro." ++ nlnl ++ join nl (slice_to_4 (split nl blank_lines_block))
   ++ nlnl ++ "Outro.")%string.

(** The four parsed fields of a row, the image left out. *)
Definition parsed (row : Material) : string * string * string * string :=
  (Material_ row, Properties row, Pros row, Cons row).

(** The events of one image request with its reply: the call and, when it
    raised, the warning of line 27. *)
Definition request_events (request : string * option string) : history :=
  openai_Image_create (fst request) (snd request) ::
  match snd request with
  | Some _ => []
  | None => [st_warning (txt_image_error (fst request))]
  end.

(** The requests were made one after the other from the history [h], each
    reply being what the image endpoint answers after the events of the
    requests before. *)
Fixpoint served (api : OpenAI) (h : history)
    (requests : list (string * option string)) : Prop :=
  match requests with
  | [] => True
  | request :: rest =>
      snd request = Image_reply api h (fst request) /\
      served api (h ++ request_events request) rest
  end.

(** The events of lines 194-201 for one row of the table. *)
Definition row_events (row : Material) : history :=
  st_markdown (txt_heading (Material_ row)) ::
  (if String.eqb (Image row) No_Image then []
   else [st_image (Image row) (Material_ row)]) ++
  [st_markdown (txt_properties (Properties row));
   st_markdown (txt_pros (Pros row));
   st_markdown (txt_cons (Cons row));
   st_write txt_rule].

(** The material names of the headings shown (line 195), in order. *)
Definition headings (evs : history) : list string :=
  flat_map (fun ev => match ev with
                      | st_markdown (txt_heading material_name) => [material_name]
                      | _ => []
                      end) evs.

(** The prompt of lines 107-110 for a user input. *)
Definition summarize_prompt (input_text : string) : string :=
  (nl ++ "        Generate a one sentence, descriptive and concise prompt for the user input: "
   ++ input_text ++ nl ++ "        The output must be in one sentence."
   ++ nl ++ "        ")%string.

(** The message content of lines 72 and 91 for a summary, by the radio
    button. *)
Definition suggestion_content (explanation_type : explanation)
    (summarized_input : string) : string :=
  (summarized_input ++
   match explanation_type with
   | Brief =>
       ". Please provide the main key points regarding the materials' properties, pros, and cons."
   | Detailed =>
       ". Please provide detailed explanations regarding the materials' properties, pros, and cons."
   end)%string.

(** The text of decimal digits alone. *)
Fixpoint decimal_only (s : string) : bool :=
  match s with
  | "" => true
  | String c s' => isdecimal c && decimal_only s'
  end.

(** The events that are calls to the completion endpoint (the summarizer),
    to the chat endpoint (the fetchers) and to the image endpoint. *)
Definition is_Completion_call (ev : event) : bool :=
  match ev with openai_Completion_create _ _ => true | _ => false end.

Definition is_ChatCompletion_call (ev : event) : bool :=
  match ev with openai_ChatCompletion_create _ _ => true | _ => false end.

Definition is_Image_call (ev : event) : bool :=
  match ev with openai_Image_create _ _ => true | _ => false end.

(** An OpenAI whose summarizer answers and whose fetchers raise. *)
Definition no_chat : OpenAI :=
  {| Image_reply := fun _ _ => None;
     Completion_reply := fun _ _ => Some "steel for a bridge";
     ChatCompletion_reply := fun _ _ => None |}.

(** An OpenAI that summarizes to "steel" and answers the fetchers with the
    response of the end-to-end example, and whose image endpoint replies a
    URL for the first request only. *)
Definition scripted : OpenAI :=
  {| Image_reply := fun h prompt =>
       if existsb is_Image_call h then None
       else Some ("https://img/" ++ prompt)%string;
     Completion_reply := fun _ _ => Some "steel";
     ChatCompletion_reply := fun _ _ => Some example_response |}.

(** ** Facts about the built-ins *)

Module PyFacts.
Import Py.

(** *** The built-ins on small texts, as Python evaluates them *)

Example strip_both_ends : strip "  a b  " = "a b".
Proof. reflexivity. Qed.

Example strip_control_characters :
  strip (String "009" (String "028" ("x" ++ String "160" nl))) = "x".
Proof. reflexivity. Qed.

Example lstrip_chars_run : lstrip_chars "- " "- - x -" = "x -".
Proof. reflexivity. Qed.

Example split_trailing_separator :
  split nl ("a" ++ nl ++ "b" ++ nl) = ["a"; "b"; ""].
Proof. reflexivity. Qed.

Example split_three_line_feeds : split nlnl (nl ++ nl ++ nl) = [""; nl].
Proof. reflexivity. Qed.

Example split_overlapping : split "aba" "xababay" = ["x"; "bay"].
Proof. reflexivity. Qed.

Example replace_one_scan : replace "ab" "" "aabb" = "ab".
Proof. reflexivity. Qed.

Example replace_every_occurrence : replace "ab" "-" "abcabab" = "-c--".
Proof. reflexivity. Qed.

Example slice_of_four : slice_1_m1 [1; 2; 3; 4] = [2; 3].
Proof. reflexivity. Qed.

Example slice_of_two : slice_1_m1 [1; 2] = [].
Proof. reflexivity. Qed.

Example slice_of_none : slice_1_m1 (@nil nat) = [].
Proof. reflexivity. Qed.

Example sub_titanium : Re.sub "1. Titanium Alloy:" = "Titanium Alloy".
Proof. reflexivity. Qed.

Example sub_inner_colon_kept : Re.sub "12.a:b:" = "a:b".
Proof. reflexivity. Qed.

Example sub_digits_without_period : Re.sub "2024 steel" = "2024 steel".
Proof. reflexivity. Qed.

Example sub_colon_before_final_line_feed : Re.sub (":" ++ nl) = nl.
Proof. reflexivity. Qed.

(** *** Texts *)

Lemma append_assoc (s t u : string) : ((s ++ t) ++ u = s ++ (t ++ u))%string.
Proof. induction s as [|c s IH]; simpl; [reflexivity | now rewrite IH]. Qed.

Lemma append_nil_r (s : string) : (s ++ "")%string = s.
Proof. induction s as [|c s IH]; simpl; [reflexivity | now rewrite IH]. Qed.

Lemma length_append (s t : string) :
  String.length (s ++ t) = String.length s + String.length t.
Proof. induction s as [|c s IH]; simpl; [reflexivity | now rewrite IH]. Qed.

Lemma prefix_nil (s : string) : prefix "" s = true.
Proof. now destruct s. Qed.

Lemma prefix_cons (a b : ascii) (p s : string) :
  prefix (String a p) (String b s) = Ascii.eqb a b && prefix p s.
Proof.
  cbn [prefix]. destruct (ascii_dec a b) as [->|N].
  - now rewrite Ascii.eqb_refl.
  - apply Ascii.eqb_neq in N. now rewrite N.
Qed.

Lemma prefix_app (p r : string) : prefix p (p ++ r) = true.
Proof.
  induction p as [|a p IH]; cbn [String.append].
  - apply prefix_nil.
  - now rewrite prefix_cons, Ascii.eqb_refl.
Qed.

Lemma prefix_inv (p : string) : forall s, prefix p s = true -> exists r, s = (p ++ r)%string.
Proof.
  induction p as [|a p IH]; intros s H.
  - now exists s.
  - destruct s as [|b s]; [discriminate|].
    rewrite prefix_cons in H. apply andb_true_iff in H as [Hab H].
    apply Ascii.eqb_eq in Hab as ->.
    destruct (IH _ H) as [r ->]. now exists r.
Qed.

Lemma prefix_weaken (p x r : string) :
  prefix p x = true -> prefix p (x ++ r) = true.
Proof.
  intros H. destruct (prefix_inv _ _ H) as [y ->].
  rewrite append_assoc. apply prefix_app.
Qed.

Lemma prefix_nonempty_nil (p : string) : p <> "" -> prefix p "" = false.
Proof. destruct p; [congruence | reflexivity]. Qed.

Lemma contains_nil (sep : string) : sep <> "" -> contains sep "" = false.
Proof. destruct sep; [congruence | reflexivity]. Qed.

Lemma contains_cons (sep : string) (c : ascii) (s : string) :
  contains sep (String c s) = prefix sep (String c s) || contains sep s.
Proof. reflexivity. Qed.

(** A text without an occurrence has none in the text behind its first
    character. *)
Lemma contains_tail (sep : string) (c : ascii) (s : string) :
  contains sep (String c s) = false -> contains sep s = false.
Proof. rewrite contains_cons. now intros [_ H]%orb_false_iff. Qed.

(** *** split *)

Lemma split_go_not_nil (sep : string) :
  forall s k, split_go sep k s <> [].
Proof.
  induction s as [|c s IH]; intros k; cbn [split_go]; [discriminate|].
  destruct k as [|k]; [|apply IH].
  destruct (prefix sep (String c s)); [discriminate|].
  destruct (split_go sep 0 s); discriminate.
Qed.

Lemma split_go_skip (sep t r : string) :
  split_go sep (String.length t) (t ++ r) = split_go sep 0 r.
Proof. induction t as [|c t IH]; simpl; [reflexivity | exact IH]. Qed.

(** At an occurrence of the separator an empty piece is cut off. *)
Lemma split_match (sep r : string) :
  sep <> "" -> split sep (sep ++ r) = "" :: split sep r.
Proof.
  intros H. destruct sep as [|a sep]; [congruence|].
  unfold split. change (String a sep ++ r)%string with (String a (sep ++ r)).
  cbn [split_go].
  change (String a (sep ++ r)) with (String a sep ++ r)%string.
  rewrite prefix_app. cbn [String.length].
  replace (S (String.length sep) - 1) with (String.length sep) by lia.
  now rewrite split_go_skip.
Qed.

(** Elsewhere the character joins the first piece of what follows. *)
Lemma split_no_match (sep : string) (c : ascii) (s : string) :
  prefix sep (String c s) = false ->
  split sep (String c s) =
  match split sep s with
  | p :: ps => String c p :: ps
  | [] => [String c ""]
  end.
Proof. intros H. unfold split. cbn [split_go]. now rewrite H. Qed.

(** The first piece is a prefix of the text. *)
Lemma split_hd_prefix (sep : string) :
  forall s p ps, split sep s = p :: ps -> exists r, s = (p ++ r)%string.
Proof.
  unfold split. induction s as [|c s IH]; intros p ps H.
  - injection H as <- _. now exists "".
  - cbn [split_go] in H. destruct (prefix sep (String c s)).
    + injection H as <- _. now exists (String c s).
    + destruct (split_go sep 0 s) as [|q qs] eqn:E.
      * injection H as <- _. now exists s.
      * injection H as <- _. destruct (IH _ _ eq_refl) as [r ->].
        now exists r.
Qed.

(** No piece holds the separator. *)
Lemma split_go_no_sep (sep : string) :
  sep <> "" ->
  forall s k p, In p (split_go sep k s) -> contains sep p = false.
Proof.
  intros Hsep. induction s as [|c s IH]; intros k p Hin.
  - destruct Hin as [<-|[]]. now apply contains_nil.
  - cbn [split_go] in Hin. destruct k as [|k]; [|now apply (IH k)].
    destruct (prefix sep (String c s)) eqn:Hp.
    + destruct Hin as [<-|Hin]; [now apply contains_nil | now apply (IH _ _ Hin)].
    + destruct (split_go sep 0 s) as [|q qs] eqn:E.
      { now elim (split_go_not_nil sep s 0). }
      destruct Hin as [<-|Hin].
      * rewrite contains_cons. apply orb_false_iff. split.
        -- destruct (split_hd_prefix sep s q qs E) as [r Hr].
           destruct (prefix sep (String c q)) eqn:Hq; [|reflexivity].
           apply (prefix_weaken _ _ r) in Hq. cbn [String.append] in Hq.
           rewrite <- Hr in Hq. congruence.
        -- apply (IH 0). rewrite E. now left.
      * apply (IH 0). rewrite E. now right.
Qed.

Lemma split_no_sep (sep s p : string) :
  sep <> "" -> In p (split sep s) -> contains sep p = false.
Proof. intros H. apply split_go_no_sep, H. Qed.

(** *** Lines: splitting at the line feed *)

Lemma prefix_nl (c : ascii) (s : string) :
  prefix nl (String c s) = Ascii.eqb c LF.
Proof.
  unfold nl. now rewrite prefix_cons, prefix_nil, andb_true_r, Ascii.eqb_sym.
Qed.

Lemma contains_nl_cons (c : ascii) (s : string) :
  contains nl (String c s) = Ascii.eqb c LF || contains nl s.
Proof. now rewrite contains_cons, prefix_nl. Qed.

Lemma contains_nl_app (s t : string) :
  contains nl (s ++ t) = contains nl s || contains nl t.
Proof.
  induction s as [|c s IH].
  - reflexivity.
  - cbn [String.append]. now rewrite !contains_nl_cons, IH, orb_assoc.
Qed.

Lemma split_nl_nil : split nl "" = [""].
Proof. reflexivity. Qed.

Lemma split_nl_LF (s : string) : split nl (String LF s) = "" :: split nl s.
Proof. apply (split_match nl s). discriminate. Qed.

Lemma split_nl_other (c : ascii) (s : string) :
  Ascii.eqb c LF = false ->
  split nl (String c s) =
  match split nl s with
  | p :: ps => String c p :: ps
  | [] => [String c ""]
  end.
Proof. intros H. apply split_no_match. now rewrite prefix_nl. Qed.

(** A line without a line feed, followed by a line feed, is the first
    line. *)
Lemma split_nl_line (p rest : string) :
  contains nl p = false ->
  split nl (p ++ nl ++ rest) = p :: split nl rest.
Proof.
  induction p as [|c p IH]; intros H.
  - apply split_nl_LF.
  - rewrite contains_nl_cons in H. apply orb_false_iff in H as [Hc Hp].
    cbn [String.append]. rewrite (split_nl_other _ _ Hc), (IH Hp).
    reflexivity.
Qed.

Lemma split_nl_single (p : string) :
  contains nl p = false -> split nl p = [p].
Proof.
  induction p as [|c p IH]; intros H; [reflexivity|].
  rewrite contains_nl_cons in H. apply orb_false_iff in H as [Hc Hp].
  now rewrite (split_nl_other _ _ Hc), (IH Hp).
Qed.

(** Joining lines and splitting them again gives the lines back. *)
Lemma split_join_nl (ls : list string) :
  ls <> [] -> Forall (fun l => contains nl l = false) ls ->
  split nl (join nl ls) = ls.
Proof.
  induction ls as [|l ls IH]; intros Hne HF; [congruence|].
  inversion_clear HF as [|? ? Hl Hls].
  destruct ls as [|l' ls].
  - now apply split_nl_single.
  - change (join nl (l :: l' :: ls)) with (l ++ nl ++ join nl (l' :: ls))%string.
    rewrite (split_nl_line _ _ Hl). f_equal. apply IH; [discriminate | exact Hls].
Qed.

(** *** strip *)

Lemma isspace_LF (c : ascii) : isspace c = false -> Ascii.eqb c LF = false.
Proof.
  intros H. destruct (Ascii.eqb c LF) eqn:E; [|reflexivity].
  apply Ascii.eqb_eq in E. subst c. discriminate H.
Qed.

(** What [rstrip] keeps begins like the text. *)
Lemma rstrip_hd (s : string) (c : ascii) (r : string) :
  rstrip s = String c r -> exists s', s = String c s'.
Proof.
  destruct s as [|d s]; [discriminate|]. cbn [rstrip].
  destruct (rstrip s); [destruct (isspace d)|]; intros H; inversion H; eauto.
Qed.

Lemma lstrip_hd (s : string) (c : ascii) (r : string) :
  lstrip s = String c r -> isspace c = false.
Proof.
  induction s as [|d s IH]; [discriminate|]. cbn [lstrip].
  destruct (isspace d) eqn:E; [exact IH|]. intros H. now inversion H; subst.
Qed.

(** A stripped text does not begin with whitespace. *)
Lemma strip_hd (s : string) (c : ascii) (r : string) :
  strip s = String c r -> isspace c = false.
Proof.
  unfold strip. intros H. destruct (rstrip_hd _ _ _ H) as [s' E].
  exact (lstrip_hd _ _ _ E).
Qed.

(** A text that begins with a character other than whitespace keeps it. *)
Lemma strip_keeps_hd (c : ascii) (s : string) :
  isspace c = false -> exists r, strip (String c s) = String c r.
Proof.
  intros H. unfold strip. cbn [lstrip]. rewrite H. cbn [rstrip].
  destruct (rstrip s); [rewrite H|]; eauto.
Qed.

Lemma strip_whitespace_only (s : string) :
  whitespace_only s = true -> strip s = "".
Proof.
  unfold strip. induction s as [|c s IH]; [reflexivity|].
  cbn [whitespace_only lstrip]. intros [Hc Hs]%andb_true_iff.
  rewrite Hc. exact (IH Hs).
Qed.

(** *** Blank lines *)

Lemma prefix_nlnl (a b : ascii) (s : string) :
  prefix nlnl (String a (String b s)) = Ascii.eqb a LF && Ascii.eqb b LF.
Proof.
  unfold nlnl, nl. cbn [String.append].
  now rewrite !prefix_cons, prefix_nil, andb_true_r, (Ascii.eqb_sym LF a),
    (Ascii.eqb_sym LF b).
Qed.

Lemma contains_lstrip (sep s : string) :
  contains sep s = false -> contains sep (lstrip s) = false.
Proof.
  induction s as [|c s IH]; intros H; [exact H|]. cbn [lstrip].
  destruct (isspace c); [|exact H]. exact (IH (contains_tail _ _ _ H)).
Qed.

Lemma rstrip_LF_followed (q : string) :
  contains nlnl q = false -> LF_followed (rstrip q) = true.
Proof.
  induction q as [|c q IH]; intros H; [reflexivity|].
  pose proof (IH (contains_tail _ _ _ H)) as IH'.
  rewrite contains_cons in H. apply orb_false_iff in H as [Hp _].
  cbn [rstrip]. destruct (rstrip q) as [|d r] eqn:E.
  - destruct (isspace c) eqn:Hc; [reflexivity|].
    cbn [LF_followed]. now rewrite (isspace_LF _ Hc).
  - destruct (rstrip_hd _ _ _ E) as [q' ->]. rewrite prefix_nlnl in Hp.
    change (LF_followed (String c (String d r))) with
      ((if Ascii.eqb c LF then negb (Ascii.eqb d LF) else true)
       && LF_followed (String d r)).
    rewrite IH', andb_true_r. destruct (Ascii.eqb c LF); [|reflexivity].
    cbn [andb] in Hp. now rewrite Hp.
Qed.

(** Behind the first line, such a text has no empty line. *)
Lemma LF_followed_lines (s : string) :
  LF_followed s = true ->
  Forall (fun l => truthy l = true) (tl (split nl s)).
Proof.
  induction s as [|c s IH]; intros H; [constructor|].
  cbn [LF_followed] in H. apply andb_true_iff in H as [Hc Hs].
  specialize (IH Hs). destruct (Ascii.eqb c LF) eqn:E.
  - apply Ascii.eqb_eq in E. subst c. rewrite split_nl_LF. cbn [tl].
    destruct s as [|d s]; [discriminate|].
    apply negb_true_iff in Hc. rewrite (split_nl_other _ _ Hc) in IH |- *.
    destruct (split nl s); constructor; try reflexivity; exact IH.
  - rewrite (split_nl_other _ _ E).
    destruct (split nl s); [constructor | exact IH].
Qed.

(** The lines of a stripped paragraph, if it is not empty, are all
    non-empty: the paragraph holds no two line feeds in a row, and begins and
    ends with a character that is no line feed. *)
Lemma block_lines_truthy (p : string) :
  contains nlnl p = false -> truthy (strip p) = true ->
  Forall (fun l => truthy l = true) (split nl (strip p)).
Proof.
  intros Hp Ht.
  assert (HL : LF_followed (strip p) = true)
    by (apply rstrip_LF_followed, contains_lstrip, Hp).
  apply LF_followed_lines in HL.
  destruct (strip p) as [|c r] eqn:E; [discriminate|].
  pose proof (isspace_LF _ (strip_hd _ _ _ E)) as Hc.
  rewrite (split_nl_other _ _ Hc) in HL |- *.
  destruct (split nl r); constructor; try reflexivity; exact HL.
Qed.

(** The first line of a stripped paragraph begins with its first
    character. *)
Lemma block_first_line (p : string) (l0 : string) (ls : list string) :
  split nl (strip p) = l0 :: ls -> truthy (strip p) = true ->
  exists c r, l0 = String c r /\ isspace c = false.
Proof.
  intros Hs Ht. destruct (strip p) as [|c r] eqn:E; [discriminate|].
  pose proof (strip_hd _ _ _ E) as Hc.
  rewrite (split_nl_other _ _ (isspace_LF _ Hc)) in Hs.
  destruct (split nl r); injection Hs as <- _; eauto.
Qed.

(** *** Counting paragraphs *)

Lemma split_no_match_length (sep : string) (c : ascii) (s : string) :
  prefix sep (String c s) = false ->
  List.length (split sep (String c s)) = List.length (split sep s).
Proof.
  intros H. rewrite (split_no_match _ _ _ H).
  destruct (split sep s) eqn:E; [|reflexivity].
  now elim (split_go_not_nil sep s 0).
Qed.

Lemma prefix_nlnl_single (c : ascii) : prefix nlnl (String c "") = false.
Proof. unfold nlnl. rewrite prefix_cons. apply andb_false_r. Qed.

Lemma split_nlnl_match (r : string) :
  split nlnl (String LF (String LF r)) = "" :: split nlnl r.
Proof. apply (split_match nlnl r). discriminate. Qed.

Lemma split_length_pos (sep s : string) : 1 <= List.length (split sep s).
Proof.
  destruct (split sep s) eqn:E; [|cbn; lia].
  now elim (split_go_not_nil sep s 0).
Qed.

(** A character put in front does not lower the number of paragraphs. *)
Lemma split_nlnl_cons_le (n : nat) :
  forall s, String.length s <= n ->
  forall c, List.length (split nlnl s) <= List.length (split nlnl (String c s)).
Proof.
  induction n as [|n IH]; intros s Hs c.
  - destruct s; [|cbn in Hs; lia].
    rewrite (split_no_match_length _ _ _ (prefix_nlnl_single c)).
    apply Nat.le_refl.
  - destruct (prefix nlnl (String c s)) eqn:Hp.
    + destruct s as [|d s]; [now rewrite prefix_nlnl_single in Hp|].
      rewrite prefix_nlnl in Hp.
      apply andb_true_iff in Hp as [->%Ascii.eqb_eq ->%Ascii.eqb_eq].
      rewrite split_nlnl_match. cbn [List.length].
      destruct (prefix nlnl (String LF s)) eqn:Hq.
      * destruct s as [|e s]; [now rewrite prefix_nlnl_single in Hq|].
        rewrite prefix_nlnl in Hq.
        apply andb_true_iff in Hq as [_ ->%Ascii.eqb_eq].
        rewrite split_nlnl_match. cbn [List.length].
        apply le_n_S, IH. cbn in Hs. lia.
      * rewrite (split_no_match_length _ _ _ Hq). lia.
    + rewrite (split_no_match_length _ _ _ Hp). apply Nat.le_refl.
Qed.

Lemma split_nlnl_lstrip_le (s : string) :
  List.length (split nlnl (lstrip s)) <= List.length (split nlnl s).
Proof.
  induction s as [|c s IH]; [apply Nat.le_refl|]. cbn [lstrip].
  destruct (isspace c); [|apply Nat.le_refl].
  etransitivity; [exact IH|]. now apply (split_nlnl_cons_le (String.length s)).
Qed.

Lemma split_nlnl_rstrip_le (n : nat) :
  forall s, String.length s <= n ->
  List.length (split nlnl (rstrip s)) <= List.length (split nlnl s).
Proof.
  induction n as [|n IH]; intros s Hs.
  - destruct s; [apply Nat.le_refl | cbn in Hs; lia].
  - destruct s as [|c s]; [apply Nat.le_refl|]. cbn [rstrip].
    destruct (rstrip s) as [|d r] eqn:E.
    + destruct (isspace c); [apply split_length_pos|].
      rewrite (split_no_match_length _ _ _ (prefix_nlnl_single c)).
      apply split_length_pos.
    + destruct (rstrip_hd _ _ _ E) as [s' ->].
      destruct (prefix nlnl (String c (String d s'))) eqn:Hp.
      * rewrite prefix_nlnl in Hp.
        apply andb_true_iff in Hp as [->%Ascii.eqb_eq ->%Ascii.eqb_eq].
        rewrite !split_nlnl_match. cbn [List.length]. apply le_n_S.
        cbn [rstrip] in E. destruct (rstrip s') as [|e r'] eqn:E'.
        -- change (isspace LF) with true in E. discriminate E.
        -- injection E as <-. rewrite <- E'. apply IH. cbn in Hs |- *. lia.
      * assert (Hq : prefix nlnl (String c (String d r)) = false)
          by (rewrite prefix_nlnl in Hp |- *; exact Hp).
        rewrite (split_no_match_length _ _ _ Hp), (split_no_match_length _ _ _ Hq).
        rewrite <- E. apply IH. cbn in Hs |- *. lia.
Qed.

(** Stripping a response does not raise its number of paragraphs. *)
Lemma split_nlnl_strip_le (s : string) :
  List.length (split nlnl (strip s)) <= List.length (split nlnl s).
Proof.
  unfold strip. etransitivity; [|apply split_nlnl_lstrip_le].
  now apply (split_nlnl_rstrip_le (String.length (lstrip s))).
Qed.

(** *** replace *)

Lemma replace_go_skip (old new t r : string) :
  replace_go old new (String.length t) (t ++ r) = replace_go old new 0 r.
Proof. induction t as [|c t IH]; [reflexivity | exact IH]. Qed.

(** An occurrence at the start is replaced, and the scan goes on behind
    it. *)
Lemma replace_match (old new r : string) :
  old <> "" -> replace old new (old ++ r) = (new ++ replace old new r)%string.
Proof.
  intros H. destruct old as [|a old]; [congruence|].
  unfold replace. change (String a old ++ r)%string with (String a (old ++ r)).
  cbn [replace_go].
  change (String a (old ++ r)) with (String a old ++ r)%string.
  rewrite prefix_app. cbn [String.length].
  replace (S (String.length old) - 1) with (String.length old) by lia.
  now rewrite replace_go_skip.
Qed.

Lemma replace_no_match (old new : string) (c : ascii) (s : string) :
  prefix old (String c s) = false ->
  replace old new (String c s) = String c (replace old new s).
Proof. intros H. unfold replace. cbn [replace_go]. now rewrite H. Qed.

(** A text without an occurrence is left as it is. *)
Lemma replace_absent (old new s : string) :
  contains old s = false -> replace old new s = s.
Proof.
  induction s as [|c s IH]; intros H; [reflexivity|].
  rewrite contains_cons in H. apply orb_false_iff in H as [Hp Hs].
  now rewrite (replace_no_match _ _ _ _ Hp), (IH Hs).
Qed.

Lemma replace_go_length (old : string) :
  forall s k, String.length (replace_go old "" k s) <= String.length s.
Proof.
  induction s as [|c s IH]; intros k; [apply Nat.le_refl|].
  cbn [replace_go]. destruct k as [|k].
  - destruct (prefix old (String c s)); cbn [String.append String.length].
    + specialize (IH (String.length old - 1)). lia.
    + specialize (IH 0). lia.
  - cbn [String.length]. specialize (IH k). lia.
Qed.

(** Deleting an occurrence makes the text shorter. *)
Lemma replace_shrinks (old s : string) :
  contains old s = true ->
  String.length (replace old "" s) < String.length s \/ s = "".
Proof.
  induction s as [|c s IH]; intros H; [now right | left].
  rewrite contains_cons in H. destruct (prefix old (String c s)) eqn:Hp.
  - unfold replace. cbn [replace_go]. rewrite Hp.
    cbn [String.append String.length].
    pose proof (replace_go_length old s (String.length old - 1)). lia.
  - rewrite (replace_no_match _ _ _ _ Hp). cbn [String.length].
    cbn [orb] in H. destruct (IH H) as [L | ->]; [lia|].
    destruct old; discriminate.
Qed.

End PyFacts.

(** ** Facts about the regular expression *)

Module ReFacts.
Import Py PyFacts Re.

(** What is left behind the digits and the period is a tail of the text. *)
Lemma digits_dot_no_LF (s t : string) :
  digits_dot s = Some t -> contains nl s = false -> contains nl t = false.
Proof.
  revert t. induction s as [|c s IH]; intros t H Hs; [discriminate|].
  rewrite contains_nl_cons in Hs. apply orb_false_iff in Hs as [_ Hs].
  cbn [digits_dot] in H. destruct (isdecimal c); [now apply IH|].
  destruct (Ascii.eqb c "."); [|discriminate]. now injection H as <-.
Qed.

(** What is left behind the ordinal is empty or begins with a character
    other than whitespace, and has no line feed if the text has none. *)
Lemma match_ordinal_rest (s rest : string) :
  match_ordinal s = Some rest ->
  (rest = "" \/ exists c r, rest = String c r /\ isspace c = false) /\
  (contains nl s = false -> contains nl rest = false).
Proof.
  destruct s as [|c s]; [discriminate|]. cbn [match_ordinal].
  destruct (isdecimal c); [|discriminate].
  destruct (digits_dot s) as [t|] eqn:E; [|discriminate].
  cbn [option_map]. intros H. injection H as <-. split.
  - destruct (lstrip t) as [|d r] eqn:L; [now left | right].
    exists d, r. split; [reflexivity | exact (lstrip_hd _ _ _ L)].
  - intros Hs. rewrite contains_nl_cons in Hs.
    apply orb_false_iff in Hs as [_ Hs].
    apply contains_lstrip. exact (digits_dot_no_LF _ _ E Hs).
Qed.

(** On a line that is empty or begins with a character other than
    whitespace, dropping the final colon and stripping leaves nothing only
    for the empty line and for the lone colon. *)
Lemma strip_sub_colon_end_empty (x : string) :
  contains nl x = false ->
  (x = "" \/ exists c r, x = String c r /\ isspace c = false) ->
  strip (sub_colon_end x) = "" <-> x = "" \/ x = ":".
Proof.
  intros HLF [->|(c & r & -> & Hc)]; [split; [now left | reflexivity]|].
  cbn [sub_colon_end]. rewrite contains_nl_cons in HLF.
  apply orb_false_iff in HLF as [_ HLF].
  destruct (Ascii.eqb c ":" && at_end r) eqn:E.
  - apply andb_true_iff in E as [Ec Er]. apply Ascii.eqb_eq in Ec. subst c.
    destruct r as [|d [|e r]]; try discriminate.
    + split; [now right | reflexivity].
    + cbn [at_end] in Er. rewrite contains_nl_cons, Er in HLF. discriminate.
  - destruct (strip_keeps_hd c (sub_colon_end r) Hc) as [y ->]. split.
    + discriminate.
    + intros [H|H]; [discriminate|]. injection H as -> ->.
      discriminate E.
Qed.

(** The name cut from a first line is empty exactly for the lone colon and
    for an ordinal followed by nothing or by a lone colon. *)
Lemma name_empty_iff (line0 : string) :
  contains nl line0 = false ->
  (exists c r, line0 = String c r /\ isspace c = false) ->
  strip (sub line0) = "" <->
  line0 = ":" \/ match_ordinal line0 = Some "" \/ match_ordinal line0 = Some ":".
Proof.
  intros HLF Hhd. unfold sub.
  destruct (match_ordinal line0) as [rest|] eqn:E.
  - destruct (match_ordinal_rest _ _ E) as [Hrest Hno].
    rewrite (strip_sub_colon_end_empty rest (Hno HLF) Hrest). split.
    + intros [->| ->]; auto.
    + intros [->|[H|H]]; [discriminate E | |]; injection H as ->; auto.
  - rewrite (strip_sub_colon_end_empty line0 HLF (or_intror Hhd)). split.
    + intros [->| ->]; [|now left].
      destruct Hhd as (c & r & H & _). discriminate H.
    + intros [->|[H|H]]; [now right | discriminate H | discriminate H].
Qed.

End ReFacts.

(** ** Running display_table *)

Section Runs.

Variable api : OpenAI.

Lemma get_image_from_dalle_run (description : string) (h : history) :
  get_image_from_dalle api description h =
  (inr (Image_reply api h description), h ++ image_events api h description).
Proof.
  unfold get_image_from_dalle, image_events, bind, emit, ret.
  destruct (Image_reply api h description); cbn.
  - reflexivity.
  - now rewrite <- app_assoc.
Qed.

(** The loop body, by the number of lines of the paragraph. *)
Lemma extract_material_run (material_info : string) (h : history) :
  extract_material api material_info h =
  match Py.split Py.nl material_info with
  | line0 :: line1 :: line2 :: rest =>
      let material_name := Py.strip (Re.sub line0) in
      (inr (Some {| Material_ := material_name;
                    Properties := field "Properties: " line1;
                    Pros := field "Pros: " line2;
                    Cons := match rest with
                            | line3 :: _ => field "Cons: " line3
                            | [] => ""
                            end;
                    Image := image_of (Image_reply api h material_name) |}),
       h ++ image_events api h material_name)
  | _ => (inr None, h)
  end.
Proof.
  unfold extract_material.
  destruct (Py.split Py.nl material_info) as [|l0 [|l1 [|l2 [|l3 rest]]]];
    try reflexivity;
    cbn; unfold bind, image_events, image_of; cbn;
    destruct (Image_reply api h (Py.strip (Re.sub l0)));
    cbn; now rewrite <- ?app_assoc.
Qed.

Lemma image_requests_app (evs evs' : history) :
  image_requests (evs ++ evs') = image_requests evs ++ image_requests evs'.
Proof. apply flat_map_app. Qed.

Lemma image_requests_events (h : history) (description : string) :
  image_requests (image_events api h description) =
  [(description, Image_reply api h description)].
Proof.
  unfold image_events. now destruct (Image_reply api h description).
Qed.

(** The loop over the paragraphs: it raises nothing, appends one row for
    each stripped paragraph of more than two lines, in order, and asks for
    one image for each row. *)
Lemma for_paragraphs_run (paragraphs : list string) :
  forall materials h, exists rows evs,
    for_paragraphs api paragraphs materials h = (inr (materials ++ rows), h ++ evs) /\
    Forall2 parsed_from rows
      (filter (fun b => 2 <? List.length (Py.split Py.nl b))
              (map Py.strip paragraphs)) /\
    Forall2 enriched rows (image_requests evs).
Proof.
  induction paragraphs as [|p ps IH]; intros materials h.
  - exists [], []. cbn. rewrite !app_nil_r. repeat split; constructor.
  - cbn [for_paragraphs map filter].
    destruct (Py.truthy (Py.strip p)) eqn:Ht.
    + unfold bind at 1. rewrite extract_material_run.
      destruct (Py.split Py.nl (Py.strip p)) as [|l0 [|l1 [|l2 rest]]] eqn:E;
        try (cbn; apply IH).
      cbv zeta.
      set (name := Py.strip (Re.sub l0)).
      set (m := {| Material_ := name |}).
      destruct (IH (materials ++ [m]) (h ++ image_events api h name))
        as (rows & evs & Hrun & Hrows & Hreq).
      exists (m :: rows), (image_events api h name ++ evs).
      rewrite Hrun, <- !app_assoc. split; [reflexivity|]. split.
      * replace (2 <? List.length (l0 :: l1 :: l2 :: rest)) with true
          by (symmetry; apply Nat.ltb_lt; cbn; lia).
        constructor; [|exact Hrows].
        unfold parsed_from. rewrite E. now subst m.
      * rewrite image_requests_app, image_requests_events.
        constructor; [|exact Hreq]. now subst m.
    + destruct (Py.strip p); [|discriminate]. cbn. apply IH.
Qed.

End Runs.

(** ** The blocks of a response *)

Module BlockFacts.
Import Py PyFacts.

Lemma In_slice_1_m1 {A : Type} (x : A) (l : list A) :
  In x (slice_1_m1 l) -> In x l.
Proof.
  unfold slice_1_m1. intros H.
  rewrite <- (firstn_skipn 1 l). apply in_or_app. right.
  rewrite <- (firstn_skipn (List.length l - 1 - 1) (skipn 1 l)).
  apply in_or_app. now left.
Qed.

(** Fewer than three paragraphs leave nothing between the first and the
    last. *)
Lemma slice_1_m1_short {A : Type} (l : list A) :
  List.length l < 3 -> slice_1_m1 l = [].
Proof.
  destruct l as [|a [|b [|c l]]]; cbn; try reflexivity. lia.
Qed.

(** A block holds no blank line: it is a stripped piece of the split at
    two line feeds. *)
Lemma block_no_nlnl (output block : string) :
  In block (blocks output) ->
  exists p, block = strip p /\ contains nlnl p = false.
Proof.
  unfold blocks. intros (p & <- & Hp)%in_map_iff. exists p. split; [reflexivity|].
  apply In_slice_1_m1 in Hp. apply (split_no_sep nlnl _ _) in Hp; [exact Hp|].
  discriminate.
Qed.

(** The lines of a block that is not empty are all non-empty. *)
Lemma block_lines (output block : string) :
  In block (blocks output) -> truthy block = true ->
  nonempty_lines block = split nl block.
Proof.
  intros (p & -> & Hp)%block_no_nlnl Ht. unfold nonempty_lines.
  apply forallb_filter_id, forallb_forall, Forall_forall.
  now apply block_lines_truthy.
Qed.

(** On a block the test of line 41 decides whether there are at least three
    non-empty lines. *)
Lemma block_three_lines (output block : string) :
  In block (blocks output) ->
  (2 <? List.length (split nl block)) = three_lines block.
Proof.
  intros Hb. unfold three_lines. destruct (truthy block) eqn:Ht.
  - now rewrite (block_lines _ _ Hb Ht).
  - destruct block; [reflexivity | discriminate].
Qed.

(** The lines of any text hold no line feed. *)
Lemma lines_no_LF (s : string) :
  Forall (fun l => contains nl l = false) (split nl s).
Proof.
  apply Forall_forall. intros l Hl. apply (split_no_sep nl s l); [discriminate | exact Hl].
Qed.

(** A relation that holds along two lists can be sharpened by what holds of
    every element of the second. *)
Lemma Forall2_sharpen {A B : Type} (R R' : A -> B -> Prop) (P : B -> Prop)
    (l : list A) (l' : list B) :
  (forall a b, P b -> R a b -> R' a b) ->
  Forall P l' -> Forall2 R l l' -> Forall2 R' l l'.
Proof.
  intros HR HP H. induction H as [|a b l l' Hab H IH]; constructor.
  - apply HR; [now inversion HP | exact Hab].
  - apply IH. now inversion HP.
Qed.

End BlockFacts.

Section TableRuns.
Import Py PyFacts BlockFacts.

Variable api : OpenAI.

(** [display_table] raises nothing; its rows are, in order, those of the
    blocks with at least three non-empty lines, and it asks for one image for
    each row. *)
Lemma display_table_run (output : string) (h : history) :
  exists rows evs,
    display_table api output h = (inr rows, h ++ evs) /\
    Forall2 parsed_from rows (filter three_lines (blocks output)) /\
    Forall2 enriched rows (image_requests evs).
Proof.
  rewrite <- (filter_ext_in _ _ _ (block_three_lines output)).
  unfold display_table, blocks.
  destruct (slice_1_m1 (split nlnl (strip output))) as [|p ps] eqn:E.
  - exists [], []. rewrite app_nil_r. repeat split; constructor.
  - destruct (for_paragraphs_run api (p :: ps) [] h)
      as (rows & evs & Hrun & Hrows & Hreq).
    exists rows, evs. unfold bind. rewrite Hrun. now repeat split.
Qed.

End TableRuns.

(** ** The properties of the specification *)

Import Py PyFacts BlockFacts.

(** Evaluate the closed calls of a built-in in the goal. *)
Ltac eval_closed f :=
  repeat match goal with
         | |- context [f ?s] =>
             let v := eval vm_compute in (f s) in
             progress change (f s) with v
         end.

(** C1.  For the response of the end-to-end example the parser emits two
    rows, in this order: Aluminum (lightweight / corrosion resistant /
    costlier than steel) and Steel (strong / cheap / no cons); this holds
    whatever the image service answers. *)
Theorem C1_end_to_end_example (api : OpenAI) (h : history) :
  exists image1 image2 h',
    display_table api example_response h =
    (inr [ {| Material_ := "Aluminum"; Properties := "lightweight";
              Pros := "corrosion resistant"; Cons := "costlier than steel";
              Image := image1 |};
           {| Material_ := "Steel"; Properties := "strong";
              Pros := "cheap"; Cons := ""; Image := image2 |} ],
     h').
Proof.
  unfold display_table.
  eval_closed (@slice_1_m1 string).
  cbn [for_paragraphs]. cbv zeta.
  eval_closed strip. cbn [truthy]. unfold bind.
  rewrite extract_material_run. eval_closed (split nl). cbv beta iota zeta.
  rewrite extract_material_run. eval_closed (split nl). cbv beta iota zeta.
  eval_closed strip.
  eval_closed (field "Properties: ").
  eval_closed (field "Pros: ").
  eval_closed (field "Cons: ").
  cbn [app]. unfold ret. do 3 eexists. reflexivity.
Qed.

(** C2.  For every response, the rows the parser emits are, one for one and
    in order, those of the paragraph blocks (the first and the last
    paragraph left out) that yield at least three non-empty lines, each row
    being cut from the first lines of its block; a block with fewer such
    lines gives no row, and nothing is raised.  A line is non-empty when it
    holds a character at all; in a block that is not empty every line is. *)
Theorem C2_rows_of_three_line_blocks (api : OpenAI) (output : string) (h : history) :
  exists rows h',
    display_table api output h = (inr rows, h') /\
    Forall2 parsed_from rows (filter three_lines (blocks output)) /\
    Forall (fun block => block = "" \/ nonempty_lines block = split nl block)
           (blocks output).
Proof.
  destruct (display_table_run api output h) as (rows & evs & Hrun & Hrows & _).
  exists rows, (h ++ evs). repeat split; try assumption.
  apply Forall_forall. intros block Hb.
  destruct (truthy block) eqn:Ht.
  - right. exact (block_lines _ _ Hb Ht).
  - left. now destruct block.
Qed.

(** C3, counterexample.  The block whose first line is "1." gives a row with
    an empty name. *)
Lemma C3_counterexample :
  display_table offline bare_ordinal_response [] =
  (inr [ {| Material_ := ""; Properties := "light"; Pros := "cheap";
            Cons := ""; Image := No_Image |} ],
   [openai_Image_create "" None; st_warning (txt_image_error "")]).
Proof. vm_compute. reflexivity. Qed.

(** C3, amended.  For every response and every row emitted, the name is the
    first line of the block, which is not empty, with the ordinal and the
    final colon removed and then stripped; it is empty exactly when that
    first line is a lone colon, or an ordinal (digits, a period, whitespace)
    followed by nothing or by a lone colon. *)
Theorem C3_name_of_first_line (api : OpenAI) (output : string) (h : history) :
  exists rows h',
    display_table api output h = (inr rows, h') /\
    Forall2
      (fun row block =>
         exists line0 lines,
           split nl block = line0 :: lines /\
           line0 <> "" /\
           Material_ row = strip (Re.sub line0) /\
           (Material_ row = "" <->
            line0 = ":" \/ Re.match_ordinal line0 = Some "" \/
            Re.match_ordinal line0 = Some ":"))
      rows (filter three_lines (blocks output)).
Proof.
  destruct (display_table_run api output h) as (rows & evs & Hrun & Hrows & _).
  exists rows, (h ++ evs). split; [exact Hrun|].
  refine (Forall2_sharpen _ _
            (fun b => In b (blocks output) /\ three_lines b = true) _ _ _ _ Hrows).
  - intros row block [Hin H3] Hp. unfold parsed_from in Hp.
    destruct (split nl block) as [|l0 [|l1 [|l2 rest]]] eqn:E; try contradiction.
    destruct Hp as (Hname & _).
    assert (Ht : truthy block = true).
    { destruct block; [discriminate H3 | reflexivity]. }
    destruct (block_no_nlnl _ _ Hin) as (p & -> & _).
    destruct (block_first_line _ _ _ E Ht) as (c & r & Hl0 & Hc).
    exists l0, (l1 :: l2 :: rest). repeat split; try assumption.
    + rewrite Hl0. discriminate.
    + rewrite Hname. apply ReFacts.name_empty_iff; [|eauto].
      pose proof (lines_no_LF (strip p)) as HF. rewrite E in HF.
      now inversion HF.
    + rewrite Hname. apply ReFacts.name_empty_iff; [|eauto].
      pose proof (lines_no_LF (strip p)) as HF. rewrite E in HF.
      now inversion HF.
  - apply Forall_forall. intros b Hb. now apply filter_In in Hb.
Qed.

Lemma drop_app (t r : string) : drop (String.length t) (t ++ r) = r.
Proof. induction t as [|c t IH]; [now destruct r | exact IH]. Qed.

(** Where the label does not occur behind a leading occurrence, deleting
    every occurrence deletes just that prefix. *)
Lemma field_by_prefix_agrees (label line : string) :
  label <> "" ->
  contains label (removeprefix label line) = false ->
  field label line = field_by_prefix label line.
Proof.
  intros Hl. unfold field, field_by_prefix, removeprefix.
  destruct (prefix label line) eqn:Hp; intros H.
  - destruct (prefix_inv _ _ Hp) as [r ->]. rewrite drop_app in H |- *.
    rewrite (replace_match _ _ _ Hl). cbn [String.append].
    now rewrite (replace_absent _ _ _ H).
  - now rewrite (replace_absent _ _ _ H).
Qed.

(** C4, counterexample.  On the second line "Good Properties: dense" the
    label is no prefix, and yet it is deleted: the row holds "Good dense",
    where the prefix rule leaves the line as it is. *)
Lemma C4_counterexample :
  map (split nl) (blocks label_inside_response) =
    [["Oak:"; "Good Properties: dense"; "Pros: cheap"]] /\
  display_table offline label_inside_response [] =
    (inr [ {| Material_ := "Oak"; Properties := "Good dense"; Pros := "cheap";
              Cons := ""; Image := No_Image |} ],
     [openai_Image_create "Oak" None; st_warning (txt_image_error "Oak")]) /\
  field_by_prefix "Properties: " "Good Properties: dense" =
    "Good Properties: dense".
Proof. repeat split; vm_compute; reflexivity. Qed.

(** C4, amended.  For every row emitted, the properties are the second line
    of the block with every occurrence of "Properties: " deleted, wherever it
    stands, then the leading hyphens and spaces dropped, then stripped;
    likewise the pros from the third line with "Pros: " and the cons from the
    fourth, if there is one, with "Cons: ".  For a line in which the label
    does not occur behind an optional leading occurrence this is the prefix
    rule. *)
Theorem C4_label_deleted_everywhere (api : OpenAI) (output : string) (h : history) :
  exists rows h',
    display_table api output h = (inr rows, h') /\
    Forall2
      (fun row block =>
         exists line0 line1 line2 rest,
           split nl block = line0 :: line1 :: line2 :: rest /\
           Properties row =
             strip (lstrip_chars "- " (replace "Properties: " "" line1)) /\
           Pros row = strip (lstrip_chars "- " (replace "Pros: " "" line2)) /\
           Cons row =
             match rest with
             | line3 :: _ => strip (lstrip_chars "- " (replace "Cons: " "" line3))
             | [] => ""
             end /\
           (contains "Properties: " (removeprefix "Properties: " line1) = false ->
            Properties row = field_by_prefix "Properties: " line1) /\
           (contains "Pros: " (removeprefix "Pros: " line2) = false ->
            Pros row = field_by_prefix "Pros: " line2) /\
           (forall line3, hd_error rest = Some line3 ->
            contains "Cons: " (removeprefix "Cons: " line3) = false ->
            Cons row = field_by_prefix "Cons: " line3))
      rows (filter three_lines (blocks output)).
Proof.
  destruct (display_table_run api output h) as (rows & evs & Hrun & Hrows & _).
  exists rows, (h ++ evs). split; [exact Hrun|].
  eapply Forall2_impl; [|exact Hrows].
  intros row block Hp. unfold parsed_from in Hp.
  destruct (split nl block) as [|l0 [|l1 [|l2 rest]]] eqn:E; try contradiction.
  destruct Hp as (_ & Hprop & Hpros & Hcons).
  exists l0, l1, l2, rest. repeat split; try assumption.
  - intros H. rewrite Hprop. now apply field_by_prefix_agrees.
  - intros H. rewrite Hpros. now apply field_by_prefix_agrees.
  - intros l3 Hl3 H. destruct rest as [|l3' rest]; [discriminate|].
    injection Hl3 as ->. rewrite Hcons. now apply field_by_prefix_agrees.
Qed.

(** C5, counterexample.  Deleting the label once from the spliced line
    leaves "Properties: dense"; deleting it again leaves "dense".  The same
    holds of the whole chain that makes the properties field. *)
Lemma C5_counterexample :
  replace "Properties: " "" spliced_line = "Properties: dense" /\
  replace "Properties: " "" (replace "Properties: " "" spliced_line) = "dense" /\
  field "Properties: " spliced_line = "Properties: dense" /\
  field "Properties: " (field "Properties: " spliced_line) = "dense".
Proof. repeat split; vm_compute; reflexivity. Qed.

(** Deleting a label twice is deleting it once exactly when no occurrence is
    left behind the first time. *)
Lemma replace_twice_iff (label line : string) :
  label <> "" ->
  replace label "" (replace label "" line) = replace label "" line <->
  contains label (replace label "" line) = false.
Proof.
  intros Hl. split.
  - intros H. destruct (contains label (replace label "" line)) eqn:E; [|reflexivity].
    destruct (replace_shrinks _ _ E) as [L|L].
    + rewrite H in L. lia.
    + rewrite L in E. now rewrite contains_nil in E.
  - apply replace_absent.
Qed.

(** C5, amended.  For every line, stripping "Properties: " twice equals
    stripping it once exactly when the line stripped once holds no occurrence
    of the label: the deletion is idempotent on every line but those in
    which it puts a new occurrence together. *)
Theorem C5_idempotent_unless_spliced (line : string) :
  replace "Properties: " "" (replace "Properties: " "" line) =
  replace "Properties: " "" line <->
  contains "Properties: " (replace "Properties: " "" line) = false.
Proof. apply replace_twice_iff. discriminate. Qed.

(** C6.  For every response that splits into fewer than three paragraphs at
    the blank lines, be they counted on the response as it is or on the
    stripped response that line 32 splits, the parser returns the empty
    table: nothing is raised and no image is asked for. *)
Theorem C6_fewer_than_three_paragraphs
    (api : OpenAI) (output : string) (h : history) :
  List.length (split nlnl output) < 3 \/
  List.length (split nlnl (strip output)) < 3 ->
  display_table api output h = (inr [], h).
Proof.
  intros H. unfold display_table. rewrite slice_1_m1_short; [reflexivity|].
  pose proof (split_nlnl_strip_le output). lia.
Qed.

Lemma C6_witness :
  (List.length (split nlnl two_paragraphs) < 3 \/
   List.length (split nlnl (strip two_paragraphs)) < 3) /\
  display_table offline two_paragraphs [] = (inr [], []).
Proof.
  assert (H : List.length (split nlnl two_paragraphs) < 3 \/
              List.length (split nlnl (strip two_paragraphs)) < 3)
    by (left; vm_compute; lia).
  split; [exact H | exact (C6_fewer_than_three_paragraphs offline _ [] H)].
Defined.

(** C7.  For every response, whatever the image service answers,
    [display_table] returns a table: no statement of it raises, and none of
    the accesses [lines[0]] to [lines[3]] is out of range. *)
Theorem C7_display_table_total (api : OpenAI) (output : string) (h : history) :
  exists rows h', display_table api output h = (inr rows, h').
Proof.
  destruct (display_table_run api output h) as (rows & evs & Hrun & _).
  now exists rows, (h ++ evs).
Qed.

Lemma image_of_not_empty (reply : option string) : image_of reply <> "".
Proof.
  destruct reply as [[|c url]|]; discriminate.
Qed.

(** C8.  For every response, the table is returned even if image requests
    fail; one image is asked for each row, under its name, in order; the
    image of the row is the URL replied when there is one and it is not
    empty, and the marker "No Image" when the request raised or replied an
    empty text; it is never the empty text. *)
Theorem C8_image_is_url_or_marker (api : OpenAI) (output : string) (h : history) :
  exists rows evs,
    display_table api output h = (inr rows, h ++ evs) /\
    Forall2
      (fun row request =>
         fst request = Material_ row /\
         match snd request with
         | Some "" => Image row = No_Image
         | Some url => Image row = url
         | None => Image row = No_Image
         end)
      rows (image_requests evs) /\
    Forall (fun row => Image row <> "") rows.
Proof.
  destruct (display_table_run api output h) as (rows & evs & Hrun & _ & Hreq).
  exists rows, evs. split; [exact Hrun|]. split.
  - eapply Forall2_impl; [|exact Hreq].
    intros row [name [[|c url]|]] [Hn Hi]; split; assumption.
  - clear Hrun. induction Hreq as [|row q rows qs [_ Hi] _ IH]; constructor.
    + rewrite Hi. apply image_of_not_empty.
    + exact IH.
Qed.

(** C9.  For every input that is empty or holds whitespace alone, a click on
    the button only shows the warning that asks for a description: the
    summarizer is not called and no call to OpenAI is made. *)
Theorem C9_blank_input_rejected (api : OpenAI) (user_input : string)
    (explanation_type : explanation) (save_clicked : bool) (h : history) :
  whitespace_only user_input = true ->
  exists evs,
    main api true user_input explanation_type save_clicked h = (inr tt, h ++ evs) /\
    evs = [st_warning txt_enter_description] /\
    existsb is_openai_call evs = false.
Proof.
  intros H. exists [st_warning txt_enter_description].
  unfold main. rewrite (strip_whitespace_only _ H). now repeat split.
Qed.

Lemma C9_witness :
  whitespace_only (String " " (String LF "")) = true /\
  exists evs,
    main offline true (String " " (String LF "")) Brief false [] = (inr tt, [] ++ evs) /\
    evs = [st_warning txt_enter_description] /\
    existsb is_openai_call evs = false.
Proof.
  split; [reflexivity|].
  exact (C9_blank_input_rejected offline (String " " (String LF "")) Brief false []
           eq_refl).
Defined.

Lemma Forall_firstn {A : Type} (P : A -> Prop) (n : nat) (l : list A) :
  Forall P l -> Forall P (firstn n l).
Proof.
  revert n. induction l as [|a l IH]; intros [|n] H; cbn; try constructor.
  - now inversion H.
  - apply IH. now inversion H.
Qed.

(** The loop body only looks at the first four lines. *)
Lemma extract_material_first_lines (api : OpenAI) (b b' : string) (h : history) :
  firstn 4 (split nl b') = firstn 4 (split nl b) ->
  extract_material api b' h = extract_material api b h.
Proof.
  intros H. rewrite !extract_material_run.
  destruct (split nl b) as [|l0 [|l1 [|l2 [|l3 rest]]]];
    destruct (split nl b') as [|l0' [|l1' [|l2' [|l3' rest']]]];
    cbn in H; try discriminate; try reflexivity;
    injection H; intros; subst; reflexivity.
Qed.

(** What [rstrip] leaves alone it leaves alone behind any text. *)
Lemma rstrip_app_kept (a b : string) :
  b <> "" -> rstrip b = b ->
  (a ++ b)%string <> "" /\ rstrip (a ++ b) = (a ++ b)%string.
Proof.
  intros Hne Hb. induction a as [|c a [IHne IH]].
  - now split.
  - split; [discriminate|]. cbn [String.append rstrip]. rewrite IH.
    destruct (a ++ b)%string; [congruence | reflexivity].
Qed.

(** A text of more than one line is not empty. *)
Lemma lines_truthy (s : string) :
  1 < List.length (split nl s) -> truthy s = true.
Proof. destruct s; [cbn; lia | reflexivity]. Qed.

(** The loop treats alike two paragraphs that strip to texts with the same
    first four lines, four at least, wherever they stand in the list. *)
Lemma for_paragraphs_first_lines (api : OpenAI) (p p' : string)
    (before after : list string) :
  3 < List.length (split nl (strip p)) ->
  slice_to_4 (split nl (strip p')) = slice_to_4 (split nl (strip p)) ->
  forall materials h,
    for_paragraphs api (before ++ p' :: after) materials h =
    for_paragraphs api (before ++ p :: after) materials h.
Proof.
  intros Hlen Hsame.
  assert (Hlen' : 3 < List.length (split nl (strip p'))).
  { apply (f_equal (@List.length string)) in Hsame. unfold slice_to_4 in Hsame.
    rewrite !length_firstn in Hsame. lia. }
  induction before as [|q before IH]; intros materials h.
  - cbn [app for_paragraphs].
    rewrite (lines_truthy (strip p)), (lines_truthy (strip p')) by lia.
    unfold bind.
    now rewrite (extract_material_first_lines api (strip p) (strip p') h Hsame).
  - cbn [app for_paragraphs]. destruct (truthy (strip q)); [|apply IH].
    unfold bind. destruct (extract_material api (strip q) h) as [[e|[m|]] h'];
      [reflexivity | apply IH | apply IH].
Qed.

(** The block cut down to four lines is left as it is by [strip] when its
    last line is not empty and does not end in whitespace. *)
Lemma strip_truncated (p line3 : string) :
  nth_error (split nl (strip p)) 3 = Some line3 ->
  line3 <> "" -> rstrip line3 = line3 ->
  strip (join nl (slice_to_4 (split nl (strip p)))) =
  join nl (slice_to_4 (split nl (strip p))).
Proof.
  intros Hnth Hne Hr.
  destruct (split nl (strip p)) as [|l0 [|l1 [|l2 [|l3 rest]]]] eqn:E;
    try discriminate.
  injection Hnth as ->.
  assert (Ht : truthy (strip p) = true)
    by (apply lines_truthy; rewrite E; cbn; lia).
  destruct (block_first_line _ _ _ E Ht) as (c & r & -> & Hc).
  change (join nl (slice_to_4 (String c r :: l1 :: l2 :: line3 :: rest)))
    with (String c (r ++ nl ++ l1 ++ nl ++ l2 ++ nl ++ line3)).
  unfold strip. cbn [lstrip]. rewrite Hc.
  change (String c (r ++ nl ++ l1 ++ nl ++ l2 ++ nl ++ line3))
    with (String c r ++ nl ++ l1 ++ nl ++ l2 ++ nl ++ line3)%string.
  pose proof (rstrip_app_kept nl line3 Hne Hr) as [N1 R1].
  pose proof (rstrip_app_kept l2 _ N1 R1) as [N2 R2].
  pose proof (rstrip_app_kept nl _ N2 R2) as [N3 R3].
  pose proof (rstrip_app_kept l1 _ N3 R3) as [N4 R4].
  pose proof (rstrip_app_kept nl _ N4 R4) as [N5 R5].
  exact (proj2 (rstrip_app_kept (String c r) _ N5 R5)).
Qed.

(** C10, counterexample.  Through the parser the block cut down to its first
    four lines is stripped again, and its last line with it.  The block whose
    fourth line is "Cons: " gives a row with empty cons, but cut down it gives
    the cons "Cons:"; the block whose third and fourth lines are one space
    gives a row, but cut down it gives none. *)
Lemma C10_counterexample :
  (4 < List.length (split nl bare_cons_block) /\
   display_table offline bare_cons_response [] =
     (inr [ {| Material_ := "Zinc"; Properties := "soft"; Pros := "cheap";
               Cons := ""; Image := No_Image |} ],
      [openai_Image_create "Zinc" None; st_warning (txt_image_error "Zinc")]) /\
   display_table offline bare_cons_truncated_response [] =
     (inr [ {| Material_ := "Zinc"; Properties := "soft"; Pros := "cheap";
               Cons := "Cons:"; Image := No_Image |} ],
      [openai_Image_create "Zinc" None; st_warning (txt_image_error "Zinc")])) /\
  (4 < List.length (split nl blank_lines_block) /\
   display_table offline blank_lines_response [] =
     (inr [ {| Material_ := "Tin"; Properties := "soft"; Pros := "";
               Cons := ""; Image := No_Image |} ],
      [openai_Image_create "Tin" None; st_warning (txt_image_error "Tin")]) /\
   display_table offline blank_lines_truncated_response [] = (inr [], [])).
Proof.
  repeat split; try (vm_compute; lia); vm_compute; reflexivity.
Qed.

(** The same of [display_table], for two responses whose paragraphs between
    the first and the last differ in that one paragraph. *)
Lemma display_table_first_lines (api : OpenAI) (p p' : string)
    (before after : list string) (output output' : string) (h : history) :
  3 < List.length (split nl (strip p)) ->
  slice_to_4 (split nl (strip p')) = slice_to_4 (split nl (strip p)) ->
  slice_1_m1 (split nlnl (strip output)) = before ++ p :: after ->
  slice_1_m1 (split nlnl (strip output')) = before ++ p' :: after ->
  display_table api output' h = display_table api output h.
Proof.
  intros Hlen Hsame Hout Hout'. unfold display_table. rewrite Hout, Hout'.
  pose proof (for_paragraphs_first_lines api p p' before after Hlen Hsame [] h) as E.
  destruct before; cbn [app] in *; unfold bind; now rewrite E.
Qed.

(** C10, amended.  For every paragraph that strips to a block of more than
    four lines, wherever it stands among the paragraphs, the parser gives the
    same table and the same events when a paragraph that strips to a block
    with the same first four lines stands in its place: the lines from index
    4 on reach no field.  This is stated of the loop of lines 37-58 and of
    [display_table] on two such responses.  The block cut down to its first
    four lines is such a paragraph when its fourth line is not empty and
    does not end in whitespace, for then stripping leaves it as it is. *)
Theorem C10_first_four_lines_decide (api : OpenAI) (p : string)
    (before after : list string) (h : history) :
  4 < List.length (split nl (strip p)) ->
  (forall p',
     slice_to_4 (split nl (strip p')) = slice_to_4 (split nl (strip p)) ->
     (forall materials,
        for_paragraphs api (before ++ p' :: after) materials h =
        for_paragraphs api (before ++ p :: after) materials h) /\
     (forall output output',
        slice_1_m1 (split nlnl (strip output)) = before ++ p :: after ->
        slice_1_m1 (split nlnl (strip output')) = before ++ p' :: after ->
        display_table api output' h = display_table api output h)) /\
  (forall line3,
     nth_error (split nl (strip p)) 3 = Some line3 ->
     line3 <> "" -> rstrip line3 = line3 ->
     (forall materials,
        for_paragraphs api
          (before ++ join nl (slice_to_4 (split nl (strip p))) :: after)
          materials h =
        for_paragraphs api (before ++ p :: after) materials h) /\
     (forall output output',
        slice_1_m1 (split nlnl (strip output)) = before ++ p :: after ->
        slice_1_m1 (split nlnl (strip output')) =
          before ++ join nl (slice_to_4 (split nl (strip p))) :: after ->
        display_table api output' h = display_table api output h)).
Proof.
  intros H.
  assert (Hboth : forall p',
            slice_to_4 (split nl (strip p')) = slice_to_4 (split nl (strip p)) ->
            (forall materials,
               for_paragraphs api (before ++ p' :: after) materials h =
               for_paragraphs api (before ++ p :: after) materials h) /\
            (forall output output',
               slice_1_m1 (split nlnl (strip output)) = before ++ p :: after ->
               slice_1_m1 (split nlnl (strip output')) = before ++ p' :: after ->
               display_table api output' h = display_table api output h)).
  { intros p' Hsame. split.
    - intros materials. apply for_paragraphs_first_lines; [lia | exact Hsame].
    - intros output output'. apply display_table_first_lines; [lia | exact Hsame]. }
  split; [exact Hboth|].
  intros line3 Hnth Hne Hr. apply Hboth.
  rewrite (strip_truncated _ _ Hnth Hne Hr). unfold slice_to_4.
  rewrite split_join_nl.
  - apply firstn_firstn.
  - destruct (split nl (strip p)); [cbn in H; lia | discriminate].
  - apply Forall_firstn, lines_no_LF.
Qed.

(** The response that holds the block of five lines, and the one that holds
    it cut down to four. *)
Lemma C10_witness :
  4 < List.length (split nl (strip five_lines)) /\
  (nth_error (split nl (strip five_lines)) 3 = Some "Cons: - tarnishes" /\
   "Cons: - tarnishes" <> "" /\ rstrip "Cons: - tarnishes" = "Cons: - tarnishes") /\
  display_table offline
    ("Intro." ++ nlnl ++ join nl (slice_to_4 (split nl (strip five_lines)))
     ++ nlnl ++ "Outro.") [] =
  display_table offline ("Intro." ++ nlnl ++ five_lines ++ nlnl ++ "Outro.") [].
Proof.
  assert (H : 4 < List.length (split nl (strip five_lines))) by (vm_compute; lia).
  assert (Hne : "Cons: - tarnishes" <> "") by discriminate.
  split; [exact H|].
  split; [split; [reflexivity | split; [exact Hne | reflexivity]]|].
  exact (proj2 (proj2 (C10_first_four_lines_decide offline five_lines [] [] [] H)
                  "Cons: - tarnishes" eq_refl Hne eq_refl)
           ("Intro." ++ nlnl ++ five_lines ++ nlnl ++ "Outro.")%string
           ("Intro." ++ nlnl ++ join nl (slice_to_4 (split nl (strip five_lines)))
            ++ nlnl ++ "Outro.")%string
           eq_refl eq_refl).
Defined.

(** ** Further facts about the built-ins *)

Module TextFacts.
Import Py PyFacts.

(** *** Stripping twice *)

Lemma lstrip_fixed (s : string) :
  (s = "" \/ exists c r, s = String c r /\ isspace c = false) -> lstrip s = s.
Proof.
  intros [->|(c & r & -> & Hc)]; [reflexivity|]. cbn [lstrip]. now rewrite Hc.
Qed.

Lemma rstrip_idempotent (s : string) : rstrip (rstrip s) = rstrip s.
Proof.
  induction s as [|c s IH]; [reflexivity|]. cbn [rstrip].
  destruct (rstrip s) as [|d r] eqn:E.
  - destruct (isspace c) eqn:Hc; [reflexivity|]. cbn [rstrip]. now rewrite Hc.
  - change (rstrip (String c (String d r))) with
      (match rstrip (String d r) with
       | "" => if isspace c then "" else String c ""
       | x => String c x
       end).
    now rewrite IH.
Qed.

Lemma strip_idempotent (s : string) : strip (strip s) = strip s.
Proof.
  unfold strip at 1. rewrite lstrip_fixed.
  - unfold strip. apply rstrip_idempotent.
  - destruct (strip s) as [|c r] eqn:E; [now left | right].
    exists c, r. split; [reflexivity | exact (strip_hd _ _ _ E)].
Qed.

(** A text with a character that is no whitespace is not stripped away. *)
Lemma strip_not_blank (s : string) :
  whitespace_only s = false -> truthy (strip s) = true.
Proof.
  unfold strip. induction s as [|c s IH]; [discriminate|].
  cbn [whitespace_only lstrip]. destruct (isspace c) eqn:Hc; [exact IH|].
  intros _. cbn [rstrip]. destruct (rstrip s); [rewrite Hc|]; reflexivity.
Qed.

(** *** No built-in of the parser brings a line feed in *)

Lemma rstrip_no_LF (s : string) :
  contains nl s = false -> contains nl (rstrip s) = false.
Proof.
  induction s as [|c s IH]; intros H; [reflexivity|].
  rewrite contains_nl_cons in H. apply orb_false_iff in H as [Hc Hs].
  cbn [rstrip]. destruct (rstrip s) as [|d r] eqn:E.
  - destruct (isspace c); [reflexivity|]. now rewrite contains_nl_cons, Hc.
  - now rewrite contains_nl_cons, Hc, (IH Hs).
Qed.

Lemma strip_no_LF (s : string) :
  contains nl s = false -> contains nl (strip s) = false.
Proof. intros H. apply rstrip_no_LF, contains_lstrip, H. Qed.

Lemma lstrip_chars_no_LF (chars s : string) :
  contains nl s = false -> contains nl (lstrip_chars chars s) = false.
Proof.
  induction s as [|c s IH]; intros H; [reflexivity|]. cbn [lstrip_chars].
  destruct (mem c chars); [|exact H]. exact (IH (contains_tail _ _ _ H)).
Qed.

Lemma replace_go_no_LF (old : string) :
  forall s k, contains nl s = false -> contains nl (replace_go old "" k s) = false.
Proof.
  induction s as [|c s IH]; intros k H; [reflexivity|].
  rewrite contains_nl_cons in H. apply orb_false_iff in H as [Hc Hs].
  cbn [replace_go]. destruct k as [|k]; [|now apply IH].
  destruct (prefix old (String c s)).
  - cbn [String.append]. now apply IH.
  - now rewrite contains_nl_cons, Hc, (IH 0 Hs).
Qed.

Lemma field_no_LF (label line : string) :
  contains nl line = false -> contains nl (field label line) = false.
Proof.
  intros H. unfold field, replace.
  now apply strip_no_LF, lstrip_chars_no_LF, replace_go_no_LF.
Qed.

Lemma sub_colon_end_no_LF (s : string) :
  contains nl s = false -> contains nl (Re.sub_colon_end s) = false.
Proof.
  induction s as [|c s IH]; intros H; [reflexivity|].
  rewrite contains_nl_cons in H. apply orb_false_iff in H as [Hc Hs].
  cbn [Re.sub_colon_end]. destruct (Ascii.eqb c ":" && Re.at_end s); [exact Hs|].
  now rewrite contains_nl_cons, Hc, (IH Hs).
Qed.

Lemma sub_no_LF (s : string) :
  contains nl s = false -> contains nl (Re.sub s) = false.
Proof.
  intros H. unfold Re.sub. destruct (Re.match_ordinal s) as [rest|] eqn:E.
  - apply sub_colon_end_no_LF. now apply (ReFacts.match_ordinal_rest _ _ E).
  - now apply sub_colon_end_no_LF.
Qed.

(** *** The ordinal and the final colon *)

Lemma isdecimal_not_period (c : ascii) : isdecimal c = true -> Ascii.eqb c "." = false.
Proof.
  intros H. destruct (Ascii.eqb c ".") eqn:E; [|reflexivity].
  apply Ascii.eqb_eq in E. subst c. discriminate H.
Qed.

Lemma digits_dot_app (digits rest : string) :
  decimal_only digits = true ->
  Re.digits_dot (digits ++ String "." rest) = Some rest.
Proof.
  induction digits as [|c d IH]; intros H.
  - reflexivity.
  - cbn [decimal_only] in H. apply andb_true_iff in H as [Hc Hd].
    cbn [String.append Re.digits_dot]. rewrite Hc. exact (IH Hd).
Qed.

Lemma lstrip_whitespace_app (w body : string) :
  whitespace_only w = true -> lstrip (w ++ body) = lstrip body.
Proof.
  induction w as [|c w IH]; intros H; [reflexivity|].
  cbn [whitespace_only] in H. apply andb_true_iff in H as [Hc Hw].
  cbn [String.append lstrip]. rewrite Hc. exact (IH Hw).
Qed.

(** The colon that ends a text is the one dropped, whatever stands before. *)
Lemma sub_colon_end_final (body : string) :
  Re.sub_colon_end (body ++ ":") = body.
Proof.
  induction body as [|c b IH]; [reflexivity|].
  cbn [String.append Re.sub_colon_end].
  replace (Ascii.eqb c ":" && Re.at_end (b ++ ":")) with false.
  - now rewrite IH.
  - symmetry. apply andb_false_iff. right.
    destruct b as [|d [|e b]]; reflexivity.
Qed.

(** *** Joining what was split *)

Lemma join_cons_head (sep : string) (c : ascii) (p : string) (ps : list string) :
  join sep (String c p :: ps) = String c (join sep (p :: ps)).
Proof. destruct ps; reflexivity. Qed.

Lemma join_split_bounded (sep : string) (n : nat) :
  sep <> "" ->
  forall s, String.length s <= n -> join sep (split sep s) = s.
Proof.
  intros Hsep. induction n as [|n IH]; intros s Hs.
  - destruct s; [reflexivity | cbn in Hs; lia].
  - destruct s as [|c s]; [reflexivity|].
    destruct (prefix sep (String c s)) eqn:Hp.
    + destruct (prefix_inv _ _ Hp) as [r Hr]. rewrite Hr.
      rewrite (split_match _ _ Hsep).
      assert (Hlen : String.length r <= n).
      { apply (f_equal String.length) in Hr. rewrite length_append in Hr.
        cbn [String.length] in Hr, Hs.
        destruct sep; [congruence | cbn [String.length] in Hr; lia]. }
      specialize (IH r Hlen).
      destruct (split sep r) as [|p ps] eqn:E.
      { now elim (split_go_not_nil sep r 0). }
      change (join sep ("" :: p :: ps)) with (sep ++ join sep (p :: ps))%string.
      now rewrite IH.
    + rewrite (split_no_match _ _ _ Hp).
      assert (Hlen : String.length s <= n) by (cbn in Hs; lia).
      specialize (IH s Hlen).
      destruct (split sep s) as [|p ps] eqn:E.
      { now elim (split_go_not_nil sep s 0). }
      now rewrite join_cons_head, IH.
Qed.

Lemma join_split (sep s : string) : sep <> "" -> join sep (split sep s) = s.
Proof. intros H. now apply (join_split_bounded sep (String.length s)). Qed.

End TextFacts.

(** ** The trace of display_table *)

Section TableTraces.
Import TextFacts.

Variable api : OpenAI.

Lemma image_events_request (h : history) (description : string) :
  image_events api h description =
  request_events (description, Image_reply api h description).
Proof. reflexivity. Qed.

(** The loop appends, for each row, the events of its image request and
    nothing else. *)
Lemma for_paragraphs_trace (paragraphs : list string) :
  forall materials h, exists rows requests,
    for_paragraphs api paragraphs materials h =
      (inr (materials ++ rows), h ++ flat_map request_events requests) /\
    Forall2 parsed_from rows
      (filter (fun b => 2 <? List.length (split nl b)) (map strip paragraphs)) /\
    Forall2 enriched rows requests /\
    served api h requests.
Proof.
  induction paragraphs as [|p ps IH]; intros materials h.
  - exists [], []. cbn. rewrite !app_nil_r. repeat split; constructor.
  - cbn [for_paragraphs map filter].
    destruct (truthy (strip p)) eqn:Ht.
    + unfold bind at 1. rewrite extract_material_run.
      destruct (split nl (strip p)) as [|l0 [|l1 [|l2 rest]]] eqn:E;
        try (cbn; apply IH).
      cbv zeta.
      set (name := strip (Re.sub l0)).
      set (m := {| Material_ := name |}).
      destruct (IH (materials ++ [m]) (h ++ image_events api h name))
        as (rows & reqs & Hrun & Hrows & Hreq & Hserved).
      exists (m :: rows), ((name, Image_reply api h name) :: reqs).
      cbn [flat_map]. rewrite <- image_events_request.
      rewrite Hrun, <- !app_assoc. split; [reflexivity|]. repeat split.
      * replace (2 <? List.length (l0 :: l1 :: l2 :: rest)) with true
          by (symmetry; apply Nat.ltb_lt; cbn; lia).
        constructor; [|exact Hrows].
        unfold parsed_from. rewrite E. now subst m.
      * constructor; [|exact Hreq]. now subst m.
      * exact Hserved.
    + destruct (strip p); [|discriminate]. cbn. apply IH.
Qed.

Lemma display_table_trace (output : string) (h : history) :
  exists rows requests,
    display_table api output h =
      (inr rows, h ++ flat_map request_events requests) /\
    Forall2 parsed_from rows (filter three_lines (blocks output)) /\
    Forall2 enriched rows requests /\
    served api h requests.
Proof.
  rewrite <- (filter_ext_in _ _ _ (block_three_lines output)).
  unfold display_table, blocks.
  destruct (slice_1_m1 (split nlnl (strip output))) as [|p ps] eqn:E.
  - exists [], []. cbn. rewrite app_nil_r. repeat split; constructor.
  - destruct (for_paragraphs_trace (p :: ps) [] h)
      as (rows & reqs & Hrun & Hrows & Hreq & Hserved).
    exists rows, reqs. unfold bind. rewrite Hrun. now repeat split.
Qed.

End TableTraces.

Lemma Forall2_Forall_l {A B : Type} (R : A -> B -> Prop) (P : A -> Prop)
    (l : list A) (l' : list B) :
  (forall a b, R a b -> P a) -> Forall2 R l l' -> Forall P l.
Proof.
  intros HR H. induction H as [|a b l l' Hab _ IH]; constructor; eauto.
Qed.

Lemma length_slice_1_m1 {A : Type} (l : list A) :
  List.length (slice_1_m1 l) = List.length l - 2.
Proof.
  unfold slice_1_m1. rewrite length_firstn, length_skipn. lia.
Qed.

Lemma filter_length_le {A : Type} (f : A -> bool) (l : list A) :
  List.length (filter f l) <= List.length l.
Proof.
  induction l as [|a l IH]; [apply Nat.le_refl|]. cbn.
  destruct (f a); cbn; lia.
Qed.

(** ** Further properties of the parser *)

(** X1.  Every row of the table has its name, properties, pros and cons free
    of whitespace at both ends: stripping any of the four fields again
    changes nothing. *)
Theorem X1_fields_are_stripped (api : OpenAI) (output : string) (h : history) :
  exists rows h',
    display_table api output h = (inr rows, h') /\
    Forall (fun row =>
              strip (Material_ row) = Material_ row /\
              strip (Properties row) = Properties row /\
              strip (Pros row) = Pros row /\
              strip (Cons row) = Cons row) rows.
Proof.
  destruct (display_table_run api output h) as (rows & evs & Hrun & Hrows & _).
  exists rows, (h ++ evs). split; [exact Hrun|].
  eapply Forall2_Forall_l; [|exact Hrows].
  intros row block Hp. cbv beta. unfold parsed_from in Hp.
  destruct (split nl block) as [|l0 [|l1 [|l2 rest]]]; try contradiction.
  destruct Hp as (-> & -> & -> & ->). unfold field.
  rewrite !TextFacts.strip_idempotent. repeat split.
  destruct rest; [reflexivity | apply TextFacts.strip_idempotent].
Qed.

(** X2.  No field of a row holds a line feed: name, properties, pros and
    cons are each a single line of text. *)
Theorem X2_fields_are_single_lines (api : OpenAI) (output : string) (h : history) :
  exists rows h',
    display_table api output h = (inr rows, h') /\
    Forall (fun row =>
              contains nl (Material_ row) = false /\
              contains nl (Properties row) = false /\
              contains nl (Pros row) = false /\
              contains nl (Cons row) = false) rows.
Proof.
  destruct (display_table_run api output h) as (rows & evs & Hrun & Hrows & _).
  exists rows, (h ++ evs). split; [exact Hrun|].
  eapply Forall2_Forall_l; [|exact Hrows].
  intros row block Hp. cbv beta. unfold parsed_from in Hp.
  pose proof (lines_no_LF block) as HF.
  destruct (split nl block) as [|l0 [|l1 [|l2 rest]]]; try contradiction.
  destruct Hp as (-> & -> & -> & ->).
  inversion_clear HF as [|? ? H0 HF1]. inversion_clear HF1 as [|? ? H1 HF2].
  inversion_clear HF2 as [|? ? H2 HF3]. repeat split.
  - now apply TextFacts.strip_no_LF, TextFacts.sub_no_LF.
  - now apply TextFacts.field_no_LF.
  - now apply TextFacts.field_no_LF.
  - destruct rest as [|l3 rest]; [reflexivity|].
    inversion_clear HF3. now apply TextFacts.field_no_LF.
Qed.

Lemma parsed_from_functional (rows rows' : list Material) (bs : list string) :
  Forall2 parsed_from rows bs -> Forall2 parsed_from rows' bs ->
  map parsed rows = map parsed rows'.
Proof.
  intros H. revert rows'. induction H as [|row b rows bs Hp _ IH]; intros rows' H'.
  - now inversion H'.
  - inversion H' as [|row' ? rows'' ? Hp' Hrest]; subst. cbn [map].
    rewrite (IH _ Hrest). f_equal. unfold parsed_from in Hp, Hp'.
    destruct (split nl b) as [|l0 [|l1 [|l2 rest]]]; try contradiction.
    destruct Hp as (E1 & E2 & E3 & E4). destruct Hp' as (F1 & F2 & F3 & F4).
    unfold parsed. congruence.
Qed.

(** X3.  The name, properties, pros and cons of the rows do not depend on the
    image service nor on what happened before: two runs on the same response
    give the same parsed fields, row by row, whatever the image requests
    reply. *)
Theorem X3_parsed_fields_independent_of_images
    (api api' : OpenAI) (output : string) (h h' : history) :
  exists rows rows' h1 h1',
    display_table api output h = (inr rows, h1) /\
    display_table api' output h' = (inr rows', h1') /\
    map parsed rows = map parsed rows'.
Proof.
  destruct (display_table_run api output h) as (rows & evs & Hrun & Hrows & _).
  destruct (display_table_run api' output h') as (rows' & evs' & Hrun' & Hrows' & _).
  exists rows, rows', (h ++ evs), (h' ++ evs'). repeat split; try assumption.
  exact (parsed_from_functional _ _ _ Hrows Hrows').
Qed.

(** X4.  Whitespace around the response does not matter: the stripped
    response gives the same table and the same events as the response
    itself. *)
Theorem X4_surrounding_whitespace_ignored
    (api : OpenAI) (output : string) (h : history) :
  display_table api (strip output) h = display_table api output h.
Proof. unfold display_table. now rewrite TextFacts.strip_idempotent. Qed.

(** X5.  The table has at most as many rows as the response has paragraphs
    between its first and its last one, and exactly one image is requested
    for each row: a response of [n] paragraphs costs at most [n - 2] image
    requests. *)
Theorem X5_rows_and_requests_bounded (api : OpenAI) (output : string) (h : history) :
  exists rows evs,
    display_table api output h = (inr rows, h ++ evs) /\
    List.length (filter is_Image_call evs) = List.length rows /\
    List.length rows <= List.length (split nlnl (strip output)) - 2.
Proof.
  destruct (display_table_trace api output h)
    as (rows & reqs & Hrun & Hrows & Hreq & _).
  exists rows, (flat_map request_events reqs). split; [exact Hrun|]. split.
  - rewrite (Forall2_length Hreq). clear.
    induction reqs as [|[name [url|]] reqs IH]; cbn; [reflexivity | |];
      now rewrite IH.
  - rewrite (Forall2_length Hrows).
    etransitivity; [apply filter_length_le|].
    unfold blocks. now rewrite length_map, length_slice_1_m1.
Qed.

(** X6.  The only effects of [display_table] are its image requests: the
    events it adds are, for each row in order, one request under the name of
    the row, followed at once by a warning naming the material when the
    request raised; each reply is what the image endpoint answers at that
    point, and no other endpoint is called. *)
Theorem X6_display_table_trace (api : OpenAI) (output : string) (h : history) :
  exists rows requests,
    display_table api output h =
      (inr rows, h ++ flat_map request_events requests) /\
    map fst requests = map Material_ rows /\
    served api h requests /\
    existsb is_Completion_call (flat_map request_events requests) = false /\
    existsb is_ChatCompletion_call (flat_map request_events requests) = false.
Proof.
  destruct (display_table_trace api output h)
    as (rows & reqs & Hrun & _ & Hreq & Hserved).
  exists rows, reqs. split; [exact Hrun|]. split; [|split; [exact Hserved|]].
  - clear Hrun Hserved. induction Hreq as [|row q rows reqs [Hn _] _ IH];
      [reflexivity|]. cbn [map]. now rewrite Hn, IH.
  - clear. split; induction reqs as [|[name [url|]] reqs IH]; cbn; auto.
Qed.

(** X7.  A first line made of an ordinal (digits and a period), whitespace,
    a text that does not begin with whitespace, and a final colon is cut down
    to that text: line 42 takes the numbering and the colon away and leaves
    the rest as it is, colons inside it included. *)
Theorem X7_ordinal_and_final_colon_removed (digits w body : string) :
  digits <> "" -> decimal_only digits = true -> whitespace_only w = true ->
  (forall c r, body = String c r -> isspace c = false) ->
  Re.sub (digits ++ "." ++ w ++ body ++ ":") = body.
Proof.
  intros Hne Hd Hw Hb. destruct digits as [|c d]; [congruence|].
  cbn [decimal_only] in Hd. apply andb_true_iff in Hd as [Hc Hd].
  unfold Re.sub. cbn [String.append Re.match_ordinal]. rewrite Hc.
  change (d ++ String "." (w ++ body ++ ":"))%string
    with (d ++ String "." (w ++ (body ++ ":")))%string.
  rewrite (TextFacts.digits_dot_app _ _ Hd). cbn [option_map].
  rewrite (TextFacts.lstrip_whitespace_app _ _ Hw), TextFacts.lstrip_fixed.
  - apply TextFacts.sub_colon_end_final.
  - right. destruct body as [|b body].
    + exists ":"%char, "". split; reflexivity.
    + exists b, (body ++ ":")%string. split; [reflexivity | now apply (Hb b body)].
Qed.

Lemma X7_witness :
  "12" <> "" /\ decimal_only "12" = true /\ whitespace_only "  " = true /\
  (forall c r, "Titanium: grade 5" = String c r -> isspace c = false) /\
  Re.sub ("12" ++ "." ++ "  " ++ "Titanium: grade 5" ++ ":") = "Titanium: grade 5".
Proof.
  assert (H1 : "12" <> "") by discriminate.
  assert (H4 : forall c r, "Titanium: grade 5" = String c r -> isspace c = false)
    by (intros c r H; injection H as <- _; reflexivity).
  split; [exact H1|]. split; [reflexivity|]. split; [reflexivity|].
  split; [exact H4|].
  exact (X7_ordinal_and_final_colon_removed "12" "  " "Titanium: grade 5"
           H1 eq_refl eq_refl H4).
Defined.

(** X8.  Splitting loses no text: the paragraphs of line 32 joined by two
    line feeds give the text back, and so do the lines of line 40 joined by
    one line feed. *)
Theorem X8_join_of_split (s : string) :
  join nlnl (split nlnl s) = s /\ join nl (split nl s) = s.
Proof. split; apply TextFacts.join_split; discriminate. Qed.

(** ** Running main *)

Section MainRuns.

Variable api : OpenAI.

Lemma show_rows_run (df : DataFrame) :
  forall h, show_rows df h = (inr tt, h ++ flat_map row_events df).
Proof.
  induction df as [|row rest IH]; intros h.
  - cbn. now rewrite app_nil_r.
  - cbn [show_rows flat_map]. unfold row_events, bind, emit, ret.
    destruct (String.eqb (Image row) No_Image); cbn;
      rewrite IH, <- !app_assoc; reflexivity.
Qed.

Lemma summarize_input_run (input_text : string) (h : history) :
  summarize_input api input_text h =
  let reply := Completion_reply api h (summarize_prompt input_text) in
  (inr reply,
   h ++ openai_Completion_create (summarize_prompt input_text) reply ::
        match reply with
        | Some _ => []
        | None => [st_error txt_summarization_error]
        end).
Proof.
  unfold summarize_input, bind, emit, ret. cbv zeta.
  fold (summarize_prompt input_text).
  destruct (Completion_reply api h (summarize_prompt input_text)); cbn;
    now rewrite <- ?app_assoc.
Qed.

Lemma fetch_run (explanation_type : explanation) (summarized_input : string)
    (h : history) :
  match explanation_type with
  | Brief => fetch_brief_material_suggestions api summarized_input
  | Detailed => fetch_detailed_material_suggestions api summarized_input
  end h =
  let content := suggestion_content explanation_type summarized_input in
  let reply := ChatCompletion_reply api h content in
  (inr reply,
   h ++ openai_ChatCompletion_create content reply ::
        match reply with
        | Some _ => []
        | None => [st_error txt_error_occurred]
        end).
Proof.
  destruct explanation_type;
    unfold fetch_brief_material_suggestions, fetch_detailed_material_suggestions,
      suggestion_content, bind, emit, ret; cbv zeta;
    match goal with |- context [ChatCompletion_reply api h ?c] =>
      destruct (ChatCompletion_reply api h c) end; cbn;
    now rewrite <- ?app_assoc.
Qed.

End MainRuns.

Section MainCases.

Variable api : OpenAI.

(** A click with an input that is not blank, by the replies of the
    summarizer and of the fetcher. *)
Lemma main_run (user_input : string) (explanation_type : explanation)
    (save_clicked : bool) (h : history) :
  whitespace_only user_input = false ->
  main api true user_input explanation_type save_clicked h =
  let prompt := summarize_prompt user_input in
  let reply := Completion_reply api h prompt in
  let h1 := h ++ [openai_Completion_create prompt reply] in
  match reply with
  | None =>
      (inr tt, h1 ++ [st_error txt_summarization_error;
                      st_error txt_failed_to_summarize])
  | Some "" => (inr tt, h1 ++ [st_error txt_failed_to_summarize])
  | Some summarized_input =>
      let h2 := h1 ++ [st_markdown (txt_summarized summarized_input)] in
      let content := suggestion_content explanation_type summarized_input in
      let answer := ChatCompletion_reply api h2 content in
      let h3 := h2 ++ [openai_ChatCompletion_create content answer] in
      match answer with
      | None => (inr tt, h3 ++ [st_error txt_error_occurred])
      | Some "" => (inr tt, h3)
      | Some output =>
          match display_table api output h3 with
          | (inl e, h4) => (inl e, h4)
          | (inr df, h4) =>
              let h5 := h4 ++ flat_map row_events df ++ [st_success txt_fetched] in
              if save_clicked then save_output df h5 else (inr tt, h5)
          end
      end
  end.
Proof.
  intros Hin. unfold main. rewrite (TextFacts.strip_not_blank _ Hin).
  cbn [negb]. unfold bind at 1. rewrite summarize_input_run. cbv zeta.
  destruct (Completion_reply api h (summarize_prompt user_input))
    as [[|c s]|]; cbn [app].
  - unfold emit. now rewrite <- app_assoc.
  - unfold bind at 1. unfold emit at 1. unfold bind at 1.
    rewrite fetch_run. cbv zeta. rewrite <- !app_assoc. cbn [app].
    destruct (ChatCompletion_reply api _ _) as [[|c' out]|]; try reflexivity.
    unfold bind at 1.
    destruct (display_table api (String c' out) _) as [[e|df] h4];
      [reflexivity|].
    unfold bind at 1. rewrite show_rows_run.
    unfold bind at 1. unfold emit at 1. rewrite <- app_assoc.
    now destruct save_clicked.
  - unfold bind, emit. now rewrite <- !app_assoc.
Qed.

(** The same, as the events added to the history: the summarizer call comes
    first; the rest is decided by its reply, by the reply of the fetcher and
    by the table. *)
Lemma main_outcome (user_input : string) (explanation_type : explanation)
    (save_clicked : bool) (h : history) :
  whitespace_only user_input = false ->
  let prompt := summarize_prompt user_input in
  let reply := Completion_reply api h prompt in
  exists res evs,
    main api true user_input explanation_type save_clicked h =
      (res, h ++ openai_Completion_create prompt reply :: evs) /\
    match reply with
    | None =>
        res = inr tt /\
        evs = [st_error txt_summarization_error; st_error txt_failed_to_summarize]
    | Some "" => res = inr tt /\ evs = [st_error txt_failed_to_summarize]
    | Some summarized_input =>
        let h2 := h ++ [openai_Completion_create prompt reply;
                        st_markdown (txt_summarized summarized_input)] in
        let content := suggestion_content explanation_type summarized_input in
        let answer := ChatCompletion_reply api h2 content in
        exists evs',
          evs = st_markdown (txt_summarized summarized_input) ::
                openai_ChatCompletion_create content answer :: evs' /\
          match answer with
          | None => res = inr tt /\ evs' = [st_error txt_error_occurred]
          | Some "" => res = inr tt /\ evs' = []
          | Some output =>
              exists rows requests tail,
                Forall2 enriched rows requests /\
                evs' = flat_map request_events requests ++
                       flat_map row_events rows ++
                       st_success txt_fetched :: tail /\
                (tail = [] \/
                 tail = [df_to_csv (map parsed rows); st_markdown txt_download;
                         st_success txt_saved]) /\
                (save_clicked = false -> res = inr tt /\ tail = []) /\
                Forall2 parsed_from rows (filter three_lines (blocks output))
          end
    end.
Proof.
  intros Hin. cbv zeta. rewrite (main_run _ _ _ _ Hin). cbv zeta.
  destruct (Completion_reply api h (summarize_prompt user_input))
    as [[|c s]|] eqn:E1.
  - rewrite <- ?app_assoc. cbn [app]. eexists _, _. now repeat split.
  - rewrite <- ?app_assoc. cbn [app].
    destruct (ChatCompletion_reply api _ _) as [[|c' out]|] eqn:E2.
    + eexists _, _. split; [reflexivity|]. eexists. now repeat split.
    + destruct (display_table_trace api (String c' out)
                  (h ++ [openai_Completion_create (summarize_prompt user_input)
                           (Some (String c s));
                         st_markdown (txt_summarized (String c s));
                         openai_ChatCompletion_create
                           (suggestion_content explanation_type (String c s))
                           (Some (String c' out))]))
        as (rows & reqs & Hrun & Hrows & Hreq & _).
      rewrite Hrun. destruct save_clicked.
      * destruct rows as [|row rows].
        -- unfold save_output, raise. cbv beta iota.
           rewrite <- ?app_assoc. cbn [app].
           eexists _, _. split; [reflexivity|]. eexists. split; [reflexivity|].
           exists [], reqs, []. repeat split; try assumption; try discriminate.
           now left.
        -- unfold save_output, bind, emit. cbv beta iota.
           rewrite <- ?app_assoc. cbn [app].
           eexists _, _. split; [reflexivity|]. eexists. split; [reflexivity|].
           exists (row :: rows), reqs,
             [df_to_csv (map parsed (row :: rows)); st_markdown txt_download;
              st_success txt_saved].
           repeat split; try assumption; try discriminate.
           now right.
      * rewrite <- ?app_assoc. cbn [app].
        eexists _, _. split; [reflexivity|]. eexists. split; [reflexivity|].
        exists rows, reqs, []. repeat split; try assumption. now left.
    + rewrite <- ?app_assoc. cbn [app].
      eexists _, _. split; [reflexivity|]. eexists. now repeat split.
  - rewrite <- ?app_assoc. cbn [app]. eexists _, _. now repeat split.
Qed.

End MainCases.

(** ** Properties of main *)

(** X9.  As long as the save button reports no click, a run of [main] raises
    nothing, whatever the input and whatever OpenAI answers: every failure of
    a request is caught and the run ends normally. *)
Theorem X9_main_raises_nothing (api : OpenAI) (get_clicked : bool)
    (user_input : string) (explanation_type : explanation) (h : history) :
  exists evs,
    main api get_clicked user_input explanation_type false h = (inr tt, h ++ evs).
Proof.
  destruct get_clicked.
  2:{ exists []. cbn. now rewrite app_nil_r. }
  destruct (whitespace_only user_input) eqn:Hin.
  { exists [st_warning txt_enter_description]. unfold main.
    now rewrite (strip_whitespace_only _ Hin). }
  destruct (main_outcome api user_input explanation_type false h Hin)
    as (res & evs & Hrun & Hcase).
  cbv zeta in Hcase. eexists. rewrite Hrun. f_equal.
  destruct (Completion_reply api h (summarize_prompt user_input)) as [[|c s]|];
    try (now destruct Hcase as [-> _]).
  destruct Hcase as (evs' & _ & Hcase).
  destruct (ChatCompletion_reply api _ _) as [[|c' out]|];
    try (now destruct Hcase as [-> _]).
  destruct Hcase as (rows & reqs & tail & _ & _ & _ & Hsave & _).
  now destruct (Hsave eq_refl) as [-> _].
Qed.

(** X10.  When the summarizer fails, because the request raised or because it
    replied an empty text, the run stops there: after the one call to the
    completion endpoint only error messages are shown, and neither a fetcher
    nor the image endpoint is called. *)
Theorem X10_summarizer_failure_stops (api : OpenAI) (user_input : string)
    (explanation_type : explanation) (save_clicked : bool) (h : history) :
  whitespace_only user_input = false ->
  Completion_reply api h (summarize_prompt user_input) = None \/
  Completion_reply api h (summarize_prompt user_input) = Some "" ->
  main api true user_input explanation_type save_clicked h =
  (inr tt,
   h ++ openai_Completion_create (summarize_prompt user_input)
          (Completion_reply api h (summarize_prompt user_input)) ::
        match Completion_reply api h (summarize_prompt user_input) with
        | None => [st_error txt_summarization_error]
        | Some _ => []
        end ++ [st_error txt_failed_to_summarize]).
Proof.
  intros Hin Hreply.
  destruct (main_outcome api user_input explanation_type save_clicked h Hin)
    as (res & evs & Hrun & Hcase).
  cbv zeta in Hcase. rewrite Hrun.
  destruct Hreply as [E|E]; rewrite E in Hcase |- *;
    now destruct Hcase as [-> ->].
Qed.

Lemma X10_witness :
  whitespace_only "a bridge" = false /\
  (Completion_reply offline [] (summarize_prompt "a bridge") = None \/
   Completion_reply offline [] (summarize_prompt "a bridge") = Some "") /\
  main offline true "a bridge" Brief false [] =
  (inr tt,
   [] ++ openai_Completion_create (summarize_prompt "a bridge")
          (Completion_reply offline [] (summarize_prompt "a bridge")) ::
        match Completion_reply offline [] (summarize_prompt "a bridge") with
        | None => [st_error txt_summarization_error]
        | Some _ => []
        end ++ [st_error txt_failed_to_summarize]).
Proof.
  split; [reflexivity|]. split; [now left|].
  exact (X10_summarizer_failure_stops offline "a bridge" Brief false [] eq_refl
           (or_introl eq_refl)).
Defined.

(** X11.  When the summary is there and the fetcher fails, the run stops
    after the one call to the chat endpoint: no image is requested, no row and
    no success message is shown.  A request that raised is followed by the
    error message; an empty answer is followed by nothing at all. *)
Theorem X11_fetch_failure_stops (api : OpenAI) (user_input : string)
    (explanation_type : explanation) (save_clicked : bool) (h : history)
    (summarized_input : string) :
  whitespace_only user_input = false ->
  Completion_reply api h (summarize_prompt user_input) = Some summarized_input ->
  truthy summarized_input = true ->
  let h2 := h ++ [openai_Completion_create (summarize_prompt user_input)
                    (Some summarized_input);
                  st_markdown (txt_summarized summarized_input)] in
  let content := suggestion_content explanation_type summarized_input in
  ChatCompletion_reply api h2 content = None \/
  ChatCompletion_reply api h2 content = Some "" ->
  main api true user_input explanation_type save_clicked h =
  (inr tt,
   h2 ++ openai_ChatCompletion_create content (ChatCompletion_reply api h2 content) ::
         match ChatCompletion_reply api h2 content with
         | None => [st_error txt_error_occurred]
         | Some _ => []
         end).
Proof.
  intros Hin E1 Ht h2 content Hanswer.
  destruct (main_outcome api user_input explanation_type save_clicked h Hin)
    as (res & evs & Hrun & Hcase).
  cbv zeta in Hcase. rewrite Hrun. rewrite E1 in Hcase |- *.
  destruct summarized_input as [|c s]; [discriminate|].
  destruct Hcase as (evs' & -> & Hcase). subst h2 content.
  rewrite <- app_assoc. cbn [app].
  destruct Hanswer as [E|E]; rewrite E in Hcase |- *;
    now destruct Hcase as [-> ->].
Qed.

Lemma X11_witness :
  whitespace_only "a bridge" = false /\
  Completion_reply no_chat [] (summarize_prompt "a bridge") = Some "steel for a bridge" /\
  truthy "steel for a bridge" = true /\
  main no_chat true "a bridge" Detailed false [] =
  (inr tt,
   [openai_Completion_create (summarize_prompt "a bridge") (Some "steel for a bridge");
    st_markdown (txt_summarized "steel for a bridge");
    openai_ChatCompletion_create
      (suggestion_content Detailed "steel for a bridge") None;
    st_error txt_error_occurred]).
Proof.
  split; [reflexivity|]. split; [reflexivity|]. split; [reflexivity|].
  exact (X11_fetch_failure_stops no_chat "a bridge" Detailed false []
           "steel for a bridge" eq_refl eq_refl eq_refl (or_introl eq_refl)).
Defined.

(** *** The events of a run, by kind *)

Lemma In_request_events (ev : event) (requests : list (string * option string)) :
  In ev (flat_map request_events requests) ->
  exists request, In request requests /\
    (ev = openai_Image_create (fst request) (snd request) \/
     ev = st_warning (txt_image_error (fst request))).
Proof.
  intros (q & Hq & Hev)%in_flat_map. exists q. split; [exact Hq|].
  unfold request_events in Hev. destruct Hev as [<-|Hev]; [now left|].
  destruct (snd q); [contradiction|]. destruct Hev as [<-|[]]. now right.
Qed.

Lemma In_row_events (ev : event) (row : Material) :
  In ev (row_events row) ->
  ev = st_image (Image row) (Material_ row) /\ String.eqb (Image row) No_Image = false \/
  ev = st_markdown (txt_heading (Material_ row)) \/
  ev = st_markdown (txt_properties (Properties row)) \/
  ev = st_markdown (txt_pros (Pros row)) \/
  ev = st_markdown (txt_cons (Cons row)) \/
  ev = st_write txt_rule.
Proof.
  unfold row_events. intros [<-|H]; [tauto|].
  destruct (String.eqb (Image row) No_Image); cbn in H;
    intuition (subst; auto).
Qed.

Lemma filter_nothing {A : Type} (f : A -> bool) (l : list A) :
  (forall x, In x l -> f x = false) -> filter f l = [].
Proof.
  induction l as [|a l IH]; intros H; [reflexivity|]. cbn.
  rewrite (H a (or_introl eq_refl)). apply IH. intros x Hx. apply H. now right.
Qed.

Lemma existsb_nothing {A : Type} (f : A -> bool) (l : list A) :
  (forall x, In x l -> f x = false) -> existsb f l = false.
Proof.
  induction l as [|a l IH]; intros H; [reflexivity|]. cbn.
  rewrite (H a (or_introl eq_refl)). apply IH. intros x Hx. apply H. now right.
Qed.

(** What the table and its display add holds no call to a text endpoint. *)
Lemma table_events_no_text_call (requests : list (string * option string))
    (rows : list Material) (tail : history) (ev : event) :
  tail = [] \/
  tail = [df_to_csv (map parsed rows); st_markdown txt_download;
          st_success txt_saved] ->
  In ev (flat_map request_events requests ++ flat_map row_events rows ++
         st_success txt_fetched :: tail) ->
  is_Completion_call ev = false /\ is_ChatCompletion_call ev = false.
Proof.
  intros Htail [H|[H|[<-|H]]%in_app_iff]%in_app_iff.
  - apply In_request_events in H as (q & _ & [->| ->]); now split.
  - apply in_flat_map in H as (row & _ & H).
    apply In_row_events in H. intuition (subst; auto).
  - now split.
  - destruct Htail as [->| ->]; cbn in H; intuition (subst; auto).
Qed.

(** X12.  An input that is not blank always reaches the summarizer: the first
    thing a click does is one call to the completion endpoint, with the
    prompt built around the input as typed, not stripped.  The run makes no
    second such call and at most one call to the chat endpoint, whose message
    is built from the summary as replied. *)
Theorem X12_one_call_per_text_stage (api : OpenAI) (user_input : string)
    (explanation_type : explanation) (save_clicked : bool) (h : history) :
  whitespace_only user_input = false ->
  exists res evs,
    main api true user_input explanation_type save_clicked h =
      (res, h ++ openai_Completion_create (summarize_prompt user_input)
                   (Completion_reply api h (summarize_prompt user_input)) :: evs) /\
    existsb is_Completion_call evs = false /\
    List.length (filter is_ChatCompletion_call evs) <= 1 /\
    forall content answer,
      In (openai_ChatCompletion_create content answer) evs ->
      exists summarized_input,
        Completion_reply api h (summarize_prompt user_input) = Some summarized_input /\
        content = suggestion_content explanation_type summarized_input.
Proof.
  intros Hin.
  destruct (main_outcome api user_input explanation_type save_clicked h Hin)
    as (res & evs & Hrun & Hcase).
  cbv zeta in Hcase. exists res, evs. split; [exact Hrun|]. clear Hrun.
  destruct (Completion_reply api h (summarize_prompt user_input)) as [[|c s]|].
  - destruct Hcase as [_ ->]. cbn. repeat split; [lia|].
    intros ? ? [H|[]]; discriminate H.
  - destruct Hcase as (evs' & -> & Hcase).
    assert (Hquiet : forall ev, In ev evs' ->
              is_Completion_call ev = false /\ is_ChatCompletion_call ev = false).
    { destruct (ChatCompletion_reply api _ _) as [[|c' out]|].
      - destruct Hcase as [_ ->]. intros ev [].
      - destruct Hcase as (rows & reqs & tail & _ & -> & Htail & _).
        intros ev. now apply table_events_no_text_call.
      - destruct Hcase as [_ ->]. intros ev [<-|[]]. now split. }
    cbn [existsb filter is_Completion_call is_ChatCompletion_call orb List.length].
    rewrite (existsb_nothing _ _ (fun ev H => proj1 (Hquiet ev H))).
    rewrite (filter_nothing _ _ (fun ev H => proj2 (Hquiet ev H))).
    repeat split; [cbn; lia|].
    intros content answer [H|[H|H]]; [discriminate H | | ].
    + injection H as <- _. now exists (String c s).
    + apply Hquiet in H as [_ H]. discriminate H.
  - destruct Hcase as [_ ->]. cbn. repeat split; [lia|].
    intros ? ? [H|[H|[]]]; discriminate H.
Qed.

Lemma X12_witness :
  whitespace_only "  a bridge " = false /\
  exists res evs,
    main scripted true "  a bridge " Brief false [] =
      (res, [] ++ openai_Completion_create (summarize_prompt "  a bridge ")
                   (Completion_reply scripted [] (summarize_prompt "  a bridge ")) :: evs) /\
    existsb is_Completion_call evs = false /\
    List.length (filter is_ChatCompletion_call evs) <= 1 /\
    forall content answer,
      In (openai_ChatCompletion_create content answer) evs ->
      exists summarized_input,
        Completion_reply scripted [] (summarize_prompt "  a bridge ") = Some summarized_input /\
        content = suggestion_content Brief summarized_input.
Proof.
  split; [reflexivity|].
  exact (X12_one_call_per_text_stage scripted "  a bridge " Brief false [] eq_refl).
Defined.

Lemma Forall2_In_l {A B : Type} (R : A -> B -> Prop) (l : list A) (l' : list B)
    (a : A) :
  Forall2 R l l' -> In a l -> exists b, In b l' /\ R a b.
Proof.
  intros H. induction H as [|x y l l' Hxy _ IH]; intros Ha; [contradiction|].
  destruct Ha as [<-|Ha].
  - exists y. split; [now left | exact Hxy].
  - destruct (IH Ha) as (b & Hb & Hab). exists b. split; [now right | exact Hab].
Qed.

(** An image shown for a row is the reply to the request made for it. *)
Lemma shown_image_was_replied (rows : list Material)
    (requests : list (string * option string)) (url caption : string) :
  Forall2 enriched rows requests ->
  In (st_image url caption) (flat_map row_events rows) ->
  url <> "" /\ url <> No_Image /\
  In (openai_Image_create caption (Some url)) (flat_map request_events requests).
Proof.
  intros Hreq (row & Hrow & Hev)%in_flat_map.
  apply In_row_events in Hev as [[Hev Hne]|Hev];
    [|intuition discriminate].
  injection Hev as -> ->.
  destruct (Forall2_In_l _ _ _ _ Hreq Hrow) as ([name reply] & Hq & Hn & Hi).
  cbn [fst snd] in Hn, Hi. apply String.eqb_neq in Hne. rewrite Hi in Hne |- *.
  destruct reply as [[|c u]|]; cbn [image_of truthy] in Hne |- *;
    try congruence.
  repeat split; [discriminate | exact Hne |].
  apply in_flat_map. exists (name, Some (String c u)). split; [exact Hq|].
  left. cbn [fst snd]. now rewrite Hn.
Qed.

(** X13.  In every run, an image is only ever shown with a URL that the image
    endpoint replied, in this run, to the request made under the caption of
    the image; the URL is never empty and never the marker "No Image". *)
Theorem X13_shown_images_were_replied (api : OpenAI) (get_clicked : bool)
    (user_input : string) (explanation_type : explanation)
    (save_clicked : bool) (h : history) :
  exists res evs,
    main api get_clicked user_input explanation_type save_clicked h =
      (res, h ++ evs) /\
    forall url caption,
      In (st_image url caption) evs ->
      url <> "" /\ url <> No_Image /\
      In (openai_Image_create caption (Some url)) evs.
Proof.
  destruct get_clicked.
  2:{ exists (inr tt), []. cbn. rewrite app_nil_r. split; [reflexivity|].
      intros ? ? []. }
  destruct (whitespace_only user_input) eqn:Hin.
  { exists (inr tt), [st_warning txt_enter_description]. unfold main.
    rewrite (strip_whitespace_only _ Hin). split; [reflexivity|].
    intros ? ? [H|[]]. discriminate H. }
  destruct (main_outcome api user_input explanation_type save_clicked h Hin)
    as (res & evs & Hrun & Hcase).
  cbv zeta in Hcase. eexists res, _. split; [exact Hrun|]. clear Hrun.
  intros url caption [H|H]; [discriminate H|].
  destruct (Completion_reply api h (summarize_prompt user_input)) as [[|c s]|].
  - destruct Hcase as [_ ->]. destruct H as [H|[]]. discriminate H.
  - destruct Hcase as (evs' & -> & Hcase).
    destruct H as [H|[H|H]]; [discriminate H | discriminate H |].
    destruct (ChatCompletion_reply api _ _) as [[|c' out]|].
    + destruct Hcase as [_ ->]. destruct H.
    + destruct Hcase as (rows & reqs & tail & Hreq & -> & Htail & _).
      apply in_app_iff in H as [H|H].
      { apply In_request_events in H as (q & _ & [H|H]); discriminate H. }
      apply in_app_iff in H as [H|[H|H]].
      * destruct (shown_image_was_replied _ _ _ _ Hreq H) as (H1 & H2 & H3).
        repeat split; try assumption.
        right. right. right. apply in_app_iff. now left.
      * discriminate H.
      * destruct Htail as [->| ->]; cbn in H; intuition discriminate.
    + destruct Hcase as [_ ->]. destruct H as [H|[]]. discriminate H.
  - destruct Hcase as [_ ->]. destruct H as [H|[H|[]]]; discriminate H.
Qed.

(** X14.  The success message of line 203 is shown exactly when both text
    requests replied a text that is not empty: the summary first, then the
    answer of the fetcher to the message built from it.  What the parser
    makes of the answer plays no part: a table without rows is reported as a
    success too. *)
Theorem X14_success_iff_both_texts (api : OpenAI) (user_input : string)
    (explanation_type : explanation) (save_clicked : bool) (h : history) :
  whitespace_only user_input = false ->
  exists res evs,
    main api true user_input explanation_type save_clicked h = (res, h ++ evs) /\
    (In (st_success txt_fetched) evs <->
     exists summarized_input output,
       Completion_reply api h (summarize_prompt user_input) = Some summarized_input /\
       truthy summarized_input = true /\
       ChatCompletion_reply api
         (h ++ [openai_Completion_create (summarize_prompt user_input)
                  (Some summarized_input);
                st_markdown (txt_summarized summarized_input)])
         (suggestion_content explanation_type summarized_input) = Some output /\
       truthy output = true).
Proof.
  intros Hin.
  destruct (main_outcome api user_input explanation_type save_clicked h Hin)
    as (res & evs & Hrun & Hcase).
  cbv zeta in Hcase. eexists res, _. split; [exact Hrun|]. clear Hrun.
  destruct (Completion_reply api h (summarize_prompt user_input))
    as [[|c s]|] eqn:E1.
  - destruct Hcase as [_ ->]. split.
    + intros [H|[H|[]]]; discriminate H.
    + intros (s & out & Hs & Ht & _). injection Hs as <-. discriminate Ht.
  - destruct Hcase as (evs' & -> & Hcase).
    destruct (ChatCompletion_reply api _ _) as [[|c' out]|] eqn:E2.
    + destruct Hcase as [_ ->]. split.
      * intros [H|[H|[H|[]]]]; discriminate H.
      * intros (s' & out & Hs & _ & Hout & Ht). injection Hs as <-.
        rewrite E2 in Hout. injection Hout as <-. discriminate Ht.
    + destruct Hcase as (rows & reqs & tail & _ & -> & _ & _). split.
      * intros _. exists (String c s), (String c' out). now repeat split.
      * intros _. right. right. right.
        apply in_app_iff. right. apply in_app_iff. right. now left.
    + destruct Hcase as [_ ->]. split.
      * intros [H|[H|[H|[H|[]]]]]; discriminate H.
      * intros (s' & out & Hs & _ & Hout & _). injection Hs as <-.
        rewrite E2 in Hout. discriminate Hout.
  - destruct Hcase as [_ ->]. split.
    + intros [H|[H|[H|[]]]]; discriminate H.
    + intros (s & out & Hs & _). discriminate Hs.
Qed.

Lemma X14_witness :
  whitespace_only "a bridge" = false /\
  exists res evs,
    main scripted true "a bridge" Brief false [] = (res, [] ++ evs) /\
    (In (st_success txt_fetched) evs <->
     exists summarized_input output,
       Completion_reply scripted [] (summarize_prompt "a bridge") = Some summarized_input /\
       truthy summarized_input = true /\
       ChatCompletion_reply scripted
         ([] ++ [openai_Completion_create (summarize_prompt "a bridge")
                  (Some summarized_input);
                st_markdown (txt_summarized summarized_input)])
         (suggestion_content Brief summarized_input) = Some output /\
       truthy output = true).
Proof.
  split; [reflexivity|].
  exact (X14_success_iff_both_texts scripted "a bridge" Brief false [] eq_refl).
Defined.

Lemma headings_app (evs evs' : history) :
  headings (evs ++ evs') = headings evs ++ headings evs'.
Proof. apply flat_map_app. Qed.

Lemma headings_requests (requests : list (string * option string)) :
  headings (flat_map request_events requests) = [].
Proof.
  induction requests as [|[name [url|]] reqs IH]; [reflexivity | exact IH | exact IH].
Qed.

Lemma headings_rows (rows : list Material) :
  headings (flat_map row_events rows) = map Material_ rows.
Proof.
  induction rows as [|row rows IH]; [reflexivity|].
  cbn [flat_map map]. rewrite headings_app, IH. unfold row_events.
  destruct (String.eqb (Image row) No_Image); reflexivity.
Qed.

(** X15.  When the summary and the answer of the fetcher are there, the
    materials are shown in the order of the answer: the headings displayed
    are, one for one and in order, the names cut from the paragraph blocks of
    the answer that have at least three non-empty lines, whether their image
    requests failed or not. *)
Theorem X15_shown_in_paragraph_order (api : OpenAI) (user_input : string)
    (explanation_type : explanation) (save_clicked : bool) (h : history)
    (summarized_input output : string) :
  whitespace_only user_input = false ->
  Completion_reply api h (summarize_prompt user_input) = Some summarized_input ->
  truthy summarized_input = true ->
  ChatCompletion_reply api
    (h ++ [openai_Completion_create (summarize_prompt user_input)
             (Some summarized_input);
           st_markdown (txt_summarized summarized_input)])
    (suggestion_content explanation_type summarized_input) = Some output ->
  truthy output = true ->
  exists res evs rows,
    main api true user_input explanation_type save_clicked h = (res, h ++ evs) /\
    Forall2 parsed_from rows (filter three_lines (blocks output)) /\
    headings evs = map Material_ rows.
Proof.
  intros Hin E1 Ht1 E2 Ht2.
  destruct (main_outcome api user_input explanation_type save_clicked h Hin)
    as (res & evs & Hrun & Hcase).
  cbv zeta in Hcase. rewrite E1 in Hcase, Hrun.
  destruct summarized_input as [|c s]; [discriminate|].
  destruct Hcase as (evs' & -> & Hcase). rewrite E2 in Hcase, Hrun.
  destruct output as [|c' out]; [discriminate|].
  destruct Hcase as (rows & reqs & tail & _ & -> & Htail & _ & Hrows).
  eexists res, _, rows. split; [exact Hrun|]. split; [exact Hrows|].
  cbn [headings flat_map app].
  change (flat_map _ (?a ++ ?b)) with (headings (a ++ b)).
  rewrite headings_app, headings_requests.
  change (st_success txt_fetched :: tail) with ([st_success txt_fetched] ++ tail).
  rewrite !headings_app, headings_rows.
  destruct Htail as [->| ->]; cbn; now rewrite app_nil_r.
Qed.

Lemma X15_witness :
  whitespace_only "a bridge" = false /\
  Completion_reply scripted [] (summarize_prompt "a bridge") = Some "steel" /\
  truthy "steel" = true /\
  ChatCompletion_reply scripted
    ([] ++ [openai_Completion_create (summarize_prompt "a bridge") (Some "steel");
            st_markdown (txt_summarized "steel")])
    (suggestion_content Brief "steel") = Some example_response /\
  truthy example_response = true /\
  exists res evs rows,
    main scripted true "a bridge" Brief false [] = (res, [] ++ evs) /\
    Forall2 parsed_from rows (filter three_lines (blocks example_response)) /\
    headings evs = map Material_ rows.
Proof.
  split; [reflexivity|]. split; [reflexivity|]. split; [reflexivity|].
  split; [reflexivity|]. split; [reflexivity|].
  exact (X15_shown_in_paragraph_order scripted "a bridge" Brief false []
           "steel" example_response eq_refl eq_refl eq_refl eq_refl eq_refl).
Defined.
